(** * Sales report generator

    A model of [sales_report.py]: the loader [read_sales_data], the four
    aggregations [generate_product_sales], [generate_salesperson_sales],
    [generate_monthly_sales] and [generate_ytd_sales], the reporter, the
    exporter, [main] and the module's entry guard.

    The program is written against pandas.  The part of pandas it uses is
    modelled here directly: a [DataFrame] is an ordered association list of
    column labels to columns ([Series]), a cell is a dynamically typed
    [value], and the operations ([df[c]], [df[c] = s], [isna().sum()],
    [dropna], [groupby(...)[...].sum()], [sort_values]) are functions on that
    representation.

    Modelling decisions that a reader should know of:
    - numeric cells hold exact integers ([Z]); the rounding of float64 and the
      overflow of int64 columns are outside the model;
    - a missing cell ([NaN], [NaT], [None]) is the single value [NaN];
    - the text parsers behind [pd.to_datetime] and [pd.to_numeric], and the
      table formatter behind [DataFrame.to_string], are parameters; what a
      cell parses to depends on the cell and, for dates, on the format
      settled on for its column, and on nothing else;
    - the iteration order of a Python [set] of strings is a parameter
      ([HashOrder]): it is fixed during a run and may differ between runs;
    - [sort_values] is modelled by a stable insertion sort; numpy's default
      sort agrees with it up to the order of rows whose keys are equal. *)

From Stdlib Require Import ZArith List String Ascii Bool Arith Lia.
From Stdlib Require Import Permutation Sorted DecimalString RelationClasses.
Import ListNotations.

Local Open Scope string_scope.
Local Open Scope Z_scope.
Local Open Scope list_scope.

(** ** Cells *)

Record Timestamp := mkTimestamp { ts_year : Z; ts_month : Z; ts_day : Z }.

(** A monthly period, the result of [.dt.to_period("M")]. *)
Record Period := mkPeriod { p_year : Z; p_month : Z }.

Inductive value : Type :=
| NaN
| Str (s : string)
| Num (n : Z)
| Time (t : Timestamp)
| Per (p : Period).

Definition isna (v : value) : bool :=
  match v with NaN => true | _ => false end.

Definition notna (v : value) : bool := negb (isna v).

Definition is_time (v : value) : bool :=
  match v with Time _ => true | _ => false end.

Definition is_num (v : value) : bool :=
  match v with Num _ => true | _ => false end.

Definition lex (c1 c2 : comparison) : comparison :=
  match c1 with Eq => c2 | _ => c1 end.

Definition Timestamp_compare (a b : Timestamp) : comparison :=
  lex (ts_year a ?= ts_year b)
      (lex (ts_month a ?= ts_month b) (ts_day a ?= ts_day b)).

Definition Period_compare (a b : Period) : comparison :=
  lex (p_year a ?= p_year b) (p_month a ?= p_month b).

(** Columns read from a CSV file are homogeneous, so only the comparisons
    between cells of one kind are ever observed; cells of different kinds are
    ordered by kind to make the comparison total. *)
Definition kind (v : value) : Z :=
  match v with NaN => 0 | Str _ => 1 | Num _ => 2 | Time _ => 3 | Per _ => 4 end.

Definition value_compare (a b : value) : comparison :=
  match a, b with
  | Str x, Str y => String.compare x y
  | Num x, Num y => x ?= y
  | Time x, Time y => Timestamp_compare x y
  | Per x, Per y => Period_compare x y
  | _, _ => kind a ?= kind b
  end.

Definition value_leb (a b : value) : bool :=
  match value_compare a b with Gt => false | _ => true end.

Definition Timestamp_eqb (a b : Timestamp) : bool :=
  (ts_year a =? ts_year b) && (ts_month a =? ts_month b) && (ts_day a =? ts_day b).

Definition Period_eqb (a b : Period) : bool :=
  (p_year a =? p_year b) && (p_month a =? p_month b).

Definition value_eqb (a b : value) : bool :=
  match a, b with
  | NaN, NaN => true
  | Str x, Str y => String.eqb x y
  | Num x, Num y => x =? y
  | Time x, Time y => Timestamp_eqb x y
  | Per x, Per y => Period_eqb x y
  | _, _ => false
  end.

(** Elementwise product of two numeric cells; a missing operand gives a
    missing result. *)
Definition value_mul (a b : value) : value :=
  match a, b with
  | Num x, Num y => Num (x * y)
  | _, _ => NaN
  end.

(** ** Sorting *)

Section Sorting.
Context {A : Type}.
Variable leb : A -> A -> bool.

Fixpoint insert_sorted (x : A) (l : list A) : list A :=
  match l with
  | [] => [x]
  | y :: l' => if leb x y then x :: l else y :: insert_sorted x l'
  end.

Fixpoint stable_sort (l : list A) : list A :=
  match l with
  | [] => []
  | x :: l' => insert_sorted x (stable_sort l')
  end.
End Sorting.

(** The comparison of [sort_values]: missing keys go last in both
    directions ([na_position="last"]). *)
Definition sort_key_leb (ascending : bool) (a b : value) : bool :=
  match a, b with
  | _, NaN => true
  | NaN, _ => false
  | _, _ => if ascending then value_leb a b else value_leb b a
  end.

(** ** Series and frames *)

Definition Series := list value.

Definition DataFrame := list (string * Series).

Definition columns (df : DataFrame) : list string := map fst df.

(** [df[c]] *)
Fixpoint getcol (df : DataFrame) (c : string) : option Series :=
  match df with
  | [] => None
  | (c', s) :: df' => if String.eqb c' c then Some s else getcol df' c
  end.

(** [df[c] = s]: replaces the column in place when the label exists, appends
    it as the last column otherwise. *)
Fixpoint setcol (df : DataFrame) (c : string) (s : Series) : DataFrame :=
  match df with
  | [] => [(c, s)]
  | (c', s') :: df' =>
      if String.eqb c' c then (c', s) :: df' else (c', s') :: setcol df' c s
  end.

Definition nrows (df : DataFrame) : nat :=
  match df with
  | [] => 0%nat
  | (_, s) :: _ => List.length s
  end.

(** [df.empty] *)
Definition empty (df : DataFrame) : bool :=
  match df with
  | [] => true
  | _ => Nat.eqb (nrows df) 0
  end.

(** [s.isna().sum()] *)
Definition count_na (s : Series) : nat := List.length (filter isna s).

(** [s.sum()], which skips missing cells. *)
Fixpoint sum_values (s : Series) : Z :=
  match s with
  | [] => 0
  | Num n :: s' => n + sum_values s'
  | _ :: s' => sum_values s'
  end.

(** [a * b] on two columns of one frame. *)
Definition series_mul (a b : Series) : Series :=
  map (fun xy => value_mul (fst xy) (snd xy)) (combine a b).

(** Boolean indexing: the cells of [s] at the positions where [mask] holds. *)
Fixpoint keep {A : Type} (mask : list bool) (s : list A) : list A :=
  match mask, s with
  | b :: mask', v :: s' => if b then v :: keep mask' s' else keep mask' s'
  | _, _ => []
  end.

Definition mask_and (m1 m2 : list bool) : list bool :=
  map (fun xy => andb (fst xy) (snd xy)) (combine m1 m2).

(** ** Exceptions *)

Inductive exn : Type :=
| SystemExit (msg : string)
| KeyError (key : string)
| NameError (name : string).

Inductive result (A : Type) : Type :=
| Ok (a : A)
| Raise (e : exn).

Arguments Ok {A} a.
Arguments Raise {A} e.

Definition rbind {A B : Type} (r : result A) (k : A -> result B) : result B :=
  match r with
  | Ok a => k a
  | Raise e => Raise e
  end.

Declare Scope result_scope.
Delimit Scope result_scope with result.
Notation "x <- r ;; k" := (rbind r (fun x => k))
  (at level 61, r at next level, right associativity) : result_scope.

(** The exit status of a process that ends with the given result: [sys.exit]
    with a message, and any uncaught exception, end it with status 1. *)
Definition exit_status {A : Type} (r : result A) : Z :=
  match r with
  | Ok _ => 0
  | Raise _ => 1
  end.

Definition getitem (df : DataFrame) (c : string) : result Series :=
  match getcol df c with
  | Some s => Ok s
  | None => Raise (KeyError c)
  end.

(** The mask of the rows that have no missing cell in any column of
    [subset]. *)
Fixpoint subset_mask (df : DataFrame) (subset : list string) (acc : list bool)
  : result (list bool) :=
  match subset with
  | [] => Ok acc
  | c :: cs =>
      match getitem df c with
      | Ok s => subset_mask df cs (mask_and acc (map notna s))
      | Raise e => Raise e
      end
  end.

(** [df[mask]]: the rows of the frame at the positions where [mask] holds. *)
Definition take_rows (mask : list bool) (df : DataFrame) : DataFrame :=
  map (fun cs => (fst cs, keep mask (snd cs))) df.

(** [df.dropna(subset=...)] *)
Definition dropna (df : DataFrame) (subset : list string) : result DataFrame :=
  (mask <- subset_mask df subset (repeat true (nrows df)) ;;
   Ok (take_rows mask df))%result.

(** ** Grouping *)

(** The distinct values of a list, each at its first occurrence. *)
Fixpoint dedup (l : list value) : list value :=
  match l with
  | [] => []
  | x :: l' => x :: filter (fun y => negb (value_eqb y x)) (dedup l')
  end.

Definition group_sum (k : value) (pairs : list (value * value)) : Z :=
  sum_values (map snd (filter (fun kv => value_eqb (fst kv) k) pairs)).

(** [df.groupby(key, as_index=False)[val].sum()]: rows whose key is missing
    are dropped ([dropna=True]), and the groups come in ascending key order
    ([sort=True]). *)
Definition group_pairs (keys vals : Series) : list (value * value) :=
  filter (fun kv => notna (fst kv)) (combine keys vals).

Definition group_keys (pairs : list (value * value)) : Series :=
  stable_sort value_leb (dedup (map fst pairs)).

Definition group_sums (pairs : list (value * value)) (groups : Series) : Series :=
  map (fun k => Num (group_sum k pairs)) groups.

Definition groupby_sum (df : DataFrame) (key val : string) : result DataFrame :=
  (keys <- getitem df key ;;
   vals <- getitem df val ;;
   let pairs := group_pairs keys vals in
   let groups := group_keys pairs in
   Ok [(key, groups); (val, group_sums pairs groups)])%result.

(** [df.sort_values(by=..., ascending=...)]: every column is permuted by the
    stable argsort of the key column. *)
Definition sort_column (ascending : bool) (keys s : Series) : Series :=
  map snd (stable_sort (fun a b => sort_key_leb ascending (fst a) (fst b))
                       (combine keys s)).

Definition sort_values (df : DataFrame) (by_ : string) (ascending : bool)
  : result DataFrame :=
  (keys <- getitem df by_ ;;
   Ok (map (fun cs => (fst cs, sort_column ascending keys (snd cs))) df))%result.

(** ** The aggregator

    Each function returns the summary it computes together with the state in
    which it leaves the frame it was given: the caller's [sales_df] is the
    same object, so a column assigned inside the function is visible after
    the call. *)

Record call : Type := mkCall { returned : DataFrame; arg_after : DataFrame }.

Definition generate_product_sales (df : DataFrame) : result call :=
  (g <- groupby_sum df "Product" "Total Sale" ;;
   s <- sort_values g "Total Sale" false ;;
   Ok (mkCall s df))%result.

Definition generate_salesperson_sales (df : DataFrame) : result call :=
  (g <- groupby_sum df "Salesperson" "Total Sale" ;;
   s <- sort_values g "Total Sale" false ;;
   Ok (mkCall s df))%result.

(** [s.dt.to_period("M")] *)
Definition dt_to_period_M (s : Series) : Series :=
  map (fun v => match v with
                | Time t => Per (mkPeriod (ts_year t) (ts_month t))
                | _ => NaN
                end) s.

(** [s.dt.year] *)
Definition dt_year (s : Series) : Series :=
  map (fun v => match v with Time t => Num (ts_year t) | _ => NaN end) s.

Definition string_of_nat (n : nat) : string :=
  NilEmpty.string_of_uint (Nat.to_uint n).

Definition string_of_Z (n : Z) : string :=
  NilZero.string_of_int (Z.to_int n).

Fixpoint zeros (n : nat) : string :=
  match n with
  | O => EmptyString
  | S n' => String "0" (zeros n')
  end.

Definition pad_left (width : nat) (s : string) : string :=
  (zeros (width - String.length s) ++ s)%string.

(** [str(p)] of a monthly period: ["YYYY-MM"]. *)
Definition Period_str (p : Period) : string :=
  (pad_left 4 (string_of_Z (p_year p)) ++ "-" ++
   pad_left 2 (string_of_Z (p_month p)))%string.

Definition Timestamp_str (t : Timestamp) : string :=
  (pad_left 4 (string_of_Z (ts_year t)) ++ "-" ++
   pad_left 2 (string_of_Z (ts_month t)) ++ "-" ++
   pad_left 2 (string_of_Z (ts_day t)))%string.

(** [s.astype(str)] *)
Definition astype_str (s : Series) : Series :=
  map (fun v => match v with
                | NaN => Str "NaT"
                | Str x => Str x
                | Num n => Str (string_of_Z n)
                | Time t => Str (Timestamp_str t)
                | Per p => Str (Period_str p)
                end) s.

Definition generate_monthly_sales (df : DataFrame) : result call :=
  (dates <- getitem df "Date" ;;
   let df := setcol df "YearMonth" (dt_to_period_M dates) in
   g <- groupby_sum df "YearMonth" "Total Sale" ;;
   monthly <- sort_values g "YearMonth" true ;;
   ym <- getitem monthly "YearMonth" ;;
   let monthly := setcol monthly "YearMonth" (astype_str ym) in
   Ok (mkCall monthly df))%result.

Definition generate_ytd_sales (df : DataFrame) : result call :=
  (dates <- getitem df "Date" ;;
   let df := setcol df "Year" (dt_year dates) in
   g <- groupby_sum df "Year" "Total Sale" ;;
   s <- sort_values g "Year" true ;;
   Ok (mkCall s df))%result.

(** ** The environment of a run *)

(** The library functions whose results the program takes as they come. *)
Record Pandas : Type := mkPandas {
  format : Type;
  (** the date format [pd.to_datetime] settles on for a column *)
  infer_format : Series -> format;
  (** one cell under that format; [None] is an unparsable cell *)
  parse_datetime : format -> value -> option Timestamp;
  (** one cell under [pd.to_numeric]; [None] is an unparsable cell *)
  parse_numeric : value -> option Z;
  (** [df.to_string(index=False, justify="left")] *)
  to_string : DataFrame -> string
}.

(** [pd.to_datetime(s, errors="coerce")] *)
Definition to_datetime (pd : Pandas) (s : Series) : Series :=
  let f := infer_format pd s in
  map (fun v => match parse_datetime pd f v with
                | Some t => Time t
                | None => NaN
                end) s.

(** [pd.to_numeric(s, errors="coerce")] *)
Definition to_numeric (pd : Pandas) (s : Series) : Series :=
  map (fun v => match parse_numeric pd v with
                | Some n => Num n
                | None => NaN
                end) s.

(** The order in which a [set] of strings is iterated.  It depends on the
    hashes of the strings, which the interpreter randomises per process. *)
Record HashOrder : Type := mkHashOrder {
  set_iter : list string -> list string;
  set_iter_perm : forall l, Permutation (set_iter l) l
}.

Inductive csv_result : Type :=
| CsvOk (df : DataFrame)
| CsvFileNotFound
| CsvError (e : string).

Definition Workbook := list (string * DataFrame).

(** What a run leaves of the output file. *)
Inductive file_state : Type :=
| Untouched
| Saved (wb : Workbook)
| WriteFailed.

Record Env : Type := mkEnv {
  (** [pd.read_csv(path)] *)
  read_csv : string -> csv_result;
  (** the exception, if any, that writing the workbook raises *)
  excel_fault : option string
}.

Record World : Type := mkWorld { stdout : list string; xlsx : file_state }.

Definition world0 : World := mkWorld [] Untouched.

Definition M (A : Type) : Type := World -> World * result A.

Definition ret {A : Type} (a : A) : M A := fun w => (w, Ok a).

Definition bind {A B : Type} (m : M A) (k : A -> M B) : M B :=
  fun w => match m w with
           | (w', Ok a) => k a w'
           | (w', Raise e) => (w', Raise e)
           end.

Definition lift {A : Type} (r : result A) : M A := fun w => (w, r).

Definition print (line : string) : M unit :=
  fun w => (mkWorld (stdout w ++ [line]) (xlsx w), Ok tt).

Definition sys_exit {A : Type} (msg : string) : M A :=
  fun w => (w, Raise (SystemExit msg)).

Definition set_xlsx (f : file_state) : M unit :=
  fun w => (mkWorld (stdout w) f, Ok tt).

Declare Scope prog_scope.
Delimit Scope prog_scope with prog.
Notation "x <- m ;; k" := (bind m (fun x => k))
  (at level 61, m at next level, right associativity) : prog_scope.
Notation "m ;; k" := (bind m (fun _ => k))
  (at level 61, right associativity) : prog_scope.

(** ** Configuration *)

Definition INPUT_FILE : string := "sales_data.csv".
Definition OUTPUT_FILE : string := "sales_report.xlsx".

Definition nl : string := String (ascii_of_nat 10) EmptyString.

(** ** The loader *)

Definition required_columns : list string :=
  ["Date"; "Product"; "Quantity"; "Unit Price"; "Salesperson"].

Definition mem (c : string) (l : list string) : bool :=
  existsb (String.eqb c) l.

(** [a.issubset(b)] *)
Definition issubset (a b : list string) : bool :=
  forallb (fun c => mem c b) a.

(** [a - b] *)
Definition difference (a b : list string) : list string :=
  filter (fun c => negb (mem c b)) a.

Definition date_warning (n : nat) : string :=
  ("⚠ Warning: " ++ string_of_nat n ++
   " rows have invalid or missing dates and were removed.")%string.

Definition numeric_warning (n : nat) : string :=
  ("⚠ Warning: " ++ string_of_nat n ++
   " rows had invalid/missing Quantity or Unit Price and were removed.")%string.

Definition missing_columns_error (names : list string) : string :=
  ("❌ Missing required columns in CSV: " ++ String.concat ", " names)%string.

Definition read_sales_data (pd : Pandas) (h : HashOrder) (env : Env)
  (file_path : string) : M DataFrame :=
  match read_csv env file_path with
  | CsvFileNotFound =>
      sys_exit ("❌ Error: File '" ++ file_path ++ "' not found.")%string
  | CsvError e =>
      sys_exit ("❌ Error reading CSV file: " ++ e)%string
  | CsvOk df =>
      if negb (issubset required_columns (columns df)) then
        let missing := difference required_columns (columns df) in
        sys_exit (missing_columns_error (set_iter h missing))
      else
        (dates <- lift (getitem df "Date") ;;
         let df := setcol df "Date" (to_datetime pd dates) in
         dates <- lift (getitem df "Date") ;;
         let invalid_dates := count_na dates in
         df <- (if (0 <? invalid_dates)%nat then
                  print (date_warning invalid_dates) ;;
                  lift (dropna df ["Date"])
                else ret df) ;;
         qty <- lift (getitem df "Quantity") ;;
         let df := setcol df "Quantity" (to_numeric pd qty) in
         price <- lift (getitem df "Unit Price") ;;
         let df := setcol df "Unit Price" (to_numeric pd price) in
         qty <- lift (getitem df "Quantity") ;;
         price <- lift (getitem df "Unit Price") ;;
         let invalid_price_qty := (count_na qty + count_na price)%nat in
         df <- (if (0 <? invalid_price_qty)%nat then
                  print (numeric_warning invalid_price_qty) ;;
                  lift (dropna df ["Quantity"; "Unit Price"])
                else ret df) ;;
         qty <- lift (getitem df "Quantity") ;;
         price <- lift (getitem df "Unit Price") ;;
         let df := setcol df "Total Sale" (series_mul qty price) in
         ret df)%prog
  end.

(** ** The exporter and the reporter *)

Definition save_to_excel (env : Env)
  (product_sales salesperson_sales monthly_sales ytd_sales : DataFrame)
  (output_file : string) : M unit :=
  match excel_fault env with
  | None =>
      (set_xlsx (Saved [("Product Sales", product_sales);
                        ("Salesperson Sales", salesperson_sales);
                        ("Monthly Sales", monthly_sales);
                        ("YTD Sales", ytd_sales)]) ;;
       print ("✅ Excel report saved as '" ++ output_file ++ "'")%string)%prog
  | Some e =>
      (set_xlsx WriteFailed ;;
       sys_exit ("❌ Error writing Excel file: " ++ e)%string)%prog
  end.

Definition print_console_table (pd : Pandas) (title : string) (df : DataFrame)
  : M unit :=
  (print (nl ++ "=== " ++ title ++ " ===")%string ;;
   print (to_string pd df))%prog.

(** ** The main script *)

Definition no_valid_data : string := "❌ No valid data to process.".

Definition banner : string := "📊 Generating Sales Report...".

Definition main (pd : Pandas) (h : HashOrder) (env : Env) : M unit :=
  (print banner ;;
   sales_df <- read_sales_data pd h env INPUT_FILE ;;
   if empty sales_df then sys_exit no_valid_data
   else
     c <- lift (generate_product_sales sales_df) ;;
     let product_sales := returned c in
     let sales_df := arg_after c in
     c <- lift (generate_salesperson_sales sales_df) ;;
     let salesperson_sales := returned c in
     let sales_df := arg_after c in
     c <- lift (generate_monthly_sales sales_df) ;;
     let monthly_sales := returned c in
     let sales_df := arg_after c in
     c <- lift (generate_ytd_sales sales_df) ;;
     let ytd_sales := returned c in
     print_console_table pd "Total Sales per Product" product_sales ;;
     print_console_table pd "Total Sales per Salesperson" salesperson_sales ;;
     print_console_table pd "Monthly Sales Summary" monthly_sales ;;
     print_console_table pd "Year-to-Date Sales" ytd_sales ;;
     save_to_excel env product_sales salesperson_sales monthly_sales ytd_sales
                   OUTPUT_FILE ;;
     print (nl ++ "🎯 Sales Report generation completed successfully!")%string)%prog.

(** ** The entry guard

    The module ends with [if _name_ == "_main_": main()].  A name at module
    level is looked up in the module's globals and then in the builtins. *)

Inductive pyobj : Type :=
| PyStr (s : string)
| PyObject.

Definition pyobj_eqb (a b : pyobj) : bool :=
  match a, b with
  | PyStr x, PyStr y => String.eqb x y
  | PyObject, PyObject => true
  | _, _ => false
  end.

(** The globals of the module when the guard is reached, the file being run
    as a script: the attributes every module has, then the names bound by
    the imports, the two constants and the function definitions. *)
Definition module_globals : list (string * pyobj) :=
  [("__name__", PyStr "__main__"); ("__doc__", PyObject);
   ("__package__", PyObject); ("__loader__", PyObject);
   ("__spec__", PyObject); ("__annotations__", PyObject);
   ("__builtins__", PyObject); ("__file__", PyObject);
   ("__cached__", PyObject);
   ("pd", PyObject); ("Path", PyObject); ("datetime", PyObject);
   ("sys", PyObject);
   ("INPUT_FILE", PyStr INPUT_FILE); ("OUTPUT_FILE", PyStr OUTPUT_FILE);
   ("read_sales_data", PyObject); ("generate_product_sales", PyObject);
   ("generate_salesperson_sales", PyObject);
   ("generate_monthly_sales", PyObject); ("generate_ytd_sales", PyObject);
   ("save_to_excel", PyObject); ("print_console_table", PyObject);
   ("main", PyObject)].

Definition builtins : list string :=
  ["ArithmeticError"; "AssertionError"; "AttributeError"; "BaseException";
   "BaseExceptionGroup"; "BlockingIOError"; "BrokenPipeError"; "BufferError";
   "BytesWarning"; "ChildProcessError"; "ConnectionAbortedError";
   "ConnectionError"; "ConnectionRefusedError"; "ConnectionResetError";
   "DeprecationWarning"; "EOFError"; "Ellipsis"; "EncodingWarning";
   "EnvironmentError"; "Exception"; "ExceptionGroup"; "False";
   "FileExistsError"; "FileNotFoundError"; "FloatingPointError";
   "FutureWarning"; "GeneratorExit"; "IOError"; "ImportError";
   "ImportWarning"; "IndentationError"; "IndexError"; "InterruptedError";
   "IsADirectoryError"; "KeyError"; "KeyboardInterrupt"; "LookupError";
   "MemoryError"; "ModuleNotFoundError"; "NameError"; "None";
   "NotADirectoryError"; "NotImplemented"; "NotImplementedError"; "OSError";
   "OverflowError"; "PendingDeprecationWarning"; "PermissionError";
   "ProcessLookupError"; "RecursionError"; "ReferenceError";
   "ResourceWarning"; "RuntimeError"; "RuntimeWarning";
   "StopAsyncIteration"; "StopIteration"; "SyntaxError"; "SyntaxWarning";
   "SystemError"; "SystemExit"; "TabError"; "TimeoutError"; "True";
   "TypeError"; "UnboundLocalError"; "UnicodeDecodeError";
   "UnicodeEncodeError"; "UnicodeError"; "UnicodeTranslateError";
   "UnicodeWarning"; "UserWarning"; "ValueError"; "Warning";
   "ZeroDivisionError"; "__build_class__"; "__debug__"; "__doc__";
   "__import__"; "__loader__"; "__name__"; "__package__"; "__spec__";
   "abs"; "aiter"; "all"; "anext"; "any"; "ascii"; "bin"; "bool";
   "breakpoint"; "bytearray"; "bytes"; "callable"; "chr"; "classmethod";
   "compile"; "complex"; "copyright"; "credits"; "delattr"; "dict"; "dir";
   "divmod"; "enumerate"; "eval"; "exec"; "exit"; "filter"; "float";
   "format"; "frozenset"; "getattr"; "globals"; "hasattr"; "hash"; "help";
   "hex"; "id"; "input"; "int"; "isinstance"; "issubclass"; "iter"; "len";
   "license"; "list"; "locals"; "map"; "max"; "memoryview"; "min"; "next";
   "object"; "oct"; "open"; "ord"; "pow"; "print"; "property"; "quit";
   "range"; "repr"; "reversed"; "round"; "set"; "setattr"; "slice";
   "sorted"; "staticmethod"; "str"; "sum"; "super"; "tuple"; "type";
   "vars"; "zip"].

Fixpoint assoc (n : string) (l : list (string * pyobj)) : option pyobj :=
  match l with
  | [] => None
  | (n', v) :: l' => if String.eqb n' n then Some v else assoc n l'
  end.

Definition lookup_name (n : string) : result pyobj :=
  match assoc n module_globals with
  | Some v => Ok v
  | None => if mem n builtins then Ok PyObject else Raise (NameError n)
  end.

(** Running the file as a script, from the guard on. *)
Definition script (pd : Pandas) (h : HashOrder) (env : Env) : M unit :=
  (v <- lift (lookup_name "_name_") ;;
   if pyobj_eqb v (PyStr "_main_") then main pd h env else ret tt)%prog.

(** ** Row-wise readings of a raw table, used to state the loader's tallies *)

Definition cells (df : DataFrame) (c : string) : Series :=
  match getcol df c with
  | Some s => s
  | None => []
  end.

(** Whether each row's date is unparsable, under the format settled on for
    the whole column. *)
Definition bad_dates (pd : Pandas) (df : DataFrame) : list bool :=
  map isna (to_datetime pd (cells df "Date")).

Definition bad_numbers (pd : Pandas) (df : DataFrame) (c : string) : list bool :=
  map isna (to_numeric pd (cells df c)).

Definition count_true (l : list bool) : nat := List.length (filter id l).

(** All columns of the frame have one length. *)
Definition rectangular (df : DataFrame) : bool :=
  forallb (fun cs => Nat.eqb (List.length (snd cs)) (nrows df)) df.

(** ** Cleaned tables *)

Fixpoint series_eqb (a b : Series) : bool :=
  match a, b with
  | [], [] => true
  | x :: a', y :: b' => value_eqb x y && series_eqb a' b'
  | _, _ => false
  end.

(** Every row has a valid date, a numeric quantity and a numeric unit price,
    and its total is their product. *)
Definition cleaned (df : DataFrame) : bool :=
  rectangular df &&
  match getcol df "Date", getcol df "Product", getcol df "Quantity",
        getcol df "Unit Price", getcol df "Salesperson",
        getcol df "Total Sale" with
  | Some d, Some _, Some q, Some u, Some _, Some t =>
      forallb is_time d && forallb is_num q && forallb is_num u &&
      series_eqb t (series_mul q u)
  | _, _, _, _, _, _ => false
  end.



(** ** A concrete library instance and concrete tables *)

Definition digit (a : ascii) : option Z :=
  let n := Z.of_nat (nat_of_ascii a) in
  if (48 <=? n) && (n <=? 57) then Some (n - 48) else None.

Fixpoint digits (s : string) (acc : Z) : option Z :=
  match s with
  | EmptyString => Some acc
  | String a s' =>
      match digit a with
      | Some d => digits s' (10 * acc + d)
      | None => None
      end
  end.

Definition decimal (s : string) : option Z :=
  match s with
  | EmptyString => None
  | _ => digits s 0
  end.

(** ISO dates, ["YYYY-MM-DD"]. *)
Definition iso_date (s : string) : option Timestamp :=
  match decimal (substring 0 4 s), decimal (substring 5 2 s),
        decimal (substring 8 2 s) with
  | Some y, Some m, Some d =>
      if (String.length s =? 10)%nat
         && String.eqb (substring 4 1 s) "-"
         && String.eqb (substring 7 1 s) "-"
         && (1 <=? m) && (m <=? 12) && (1 <=? d) && (d <=? 31)
      then Some (mkTimestamp y m d) else None
  | _, _, _ => None
  end.

Definition iso_pandas : Pandas :=
  mkPandas unit (fun _ => tt)
    (fun _ v => match v with
                | Str s => iso_date s
                | Time t => Some t
                | _ => None
                end)
    (fun v => match v with
              | Num n => Some n
              | Str s => decimal s
              | _ => None
              end)
    (fun df => String.concat "  " (columns df)).

Definition hash_order_id : HashOrder :=
  mkHashOrder (fun l => l) (fun l => Permutation_refl l).


Definition env_of (df : DataFrame) : Env :=
  mkEnv (fun _ => CsvOk df) None.

(** The table of the specification's scenario. *)
Definition scenario : DataFrame :=
  [("Date", [Str "2024-01-05"; Str "2024-02-01"; Str "bad-date"]);
   ("Product", [Str "Widget"; Str "Widget"; Str "Gadget"]);
   ("Quantity", [Num 2; Num 1; Num 5]);
   ("Unit Price", [Num 10; Num 10; Num 3]);
   ("Salesperson", [Str "Alice"; Str "Bob"; Str "Alice"])].

(** One row, whose date and quantity are both unparsable. *)
Definition bad_date_bad_quantity : DataFrame :=
  [("Date", [Str "bad-date"]);
   ("Product", [Str "Widget"]);
   ("Quantity", [Str "abc"]);
   ("Unit Price", [Num 10]);
   ("Salesperson", [Str "Alice"])].

(** One row with a valid date, whose quantity and unit price are both
    unparsable. *)
Definition bad_quantity_bad_price : DataFrame :=
  [("Date", [Str "2024-01-05"]);
   ("Product", [Str "Widget"]);
   ("Quantity", [Str "abc"]);
   ("Unit Price", [Str "xyz"]);
   ("Salesperson", [Str "Alice"])].

(** A header without the columns Quantity and Unit Price. *)
Definition two_columns_missing : DataFrame :=
  [("Date", [Str "2024-01-05"]);
   ("Product", [Str "Widget"]);
   ("Salesperson", [Str "Alice"])].



(** The cleaned table of the scenario. *)
Definition scenario_cleaned : DataFrame :=
  [("Date", [Time (mkTimestamp 2024 1 5); Time (mkTimestamp 2024 2 1)]);
   ("Product", [Str "Widget"; Str "Widget"]);
   ("Quantity", [Num 2; Num 1]);
   ("Unit Price", [Num 10; Num 10]);
   ("Salesperson", [Str "Alice"; Str "Bob"]);
   ("Total Sale", [Num 20; Num 10])].


(** Chronological order of monthly periods. *)
Definition Period_le (a b : Period) : Prop :=
  p_year a < p_year b \/ (p_year a = p_year b /\ p_month a <= p_month b).


(** The rows whose date parses. *)
Definition good_dates (pd : Pandas) (df : DataFrame) : list bool :=
  map negb (bad_dates pd df).

(** The number of rows whose date does not parse. *)
Definition date_tally (pd : Pandas) (df : DataFrame) : nat :=
  count_true (bad_dates pd df).

(** Among the rows whose date parses: the number of unparsable quantities
    plus the number of unparsable unit prices. *)
Definition numeric_tally (pd : Pandas) (df : DataFrame) : nat :=
  (count_true (mask_and (good_dates pd df) (bad_numbers pd df "Quantity")) +
   count_true (mask_and (good_dates pd df) (bad_numbers pd df "Unit Price")))%nat.

(** The rows with both a date that does not parse and a quantity or a unit
    price that does not parse. *)
Definition invalid_in_both (pd : Pandas) (df : DataFrame) : nat :=
  count_true (mask_and (bad_dates pd df)
                (map (fun xy => orb (fst xy) (snd xy))
                     (combine (bad_numbers pd df "Quantity")
                              (bad_numbers pd df "Unit Price")))).

(** The warnings that the two tallies give rise to: a tally of zero prints
    nothing. *)
Definition date_lines (pd : Pandas) (df : DataFrame) : list string :=
  if (0 <? date_tally pd df)%nat then [date_warning (date_tally pd df)] else [].

Definition numeric_lines (pd : Pandas) (df : DataFrame) : list string :=
  if (0 <? numeric_tally pd df)%nat
  then [numeric_warning (numeric_tally pd df)] else [].

(** The rows that survive the loader: valid date, quantity and unit price. *)
Definition valid_rows (pd : Pandas) (df : DataFrame) : list bool :=
  mask_and (good_dates pd df)
    (mask_and (map negb (bad_numbers pd df "Quantity"))
              (map negb (bad_numbers pd df "Unit Price"))).

(** A computation that leaves the output file as it finds it. *)
Definition keeps_file {A : Type} (m : M A) : Prop :=
  forall w, xlsx (fst (m w)) = xlsx w.

(** ** Specifications of computations *)






Definition excel_write_error (e : string) : string :=
  ("❌ Error writing Excel file: " ++ e)%string.




(** The rows of a summary: each key with the total beside it. *)
Definition summary_rows (g : DataFrame) (key : string) : list (value * value) :=
  combine (cells g key) (cells g "Total Sale").

(** The sum of Total Sale over the rows of the table selected by a mask. *)
Definition total_of (df : DataFrame) (rows : list bool) : Z :=
  sum_values (keep rows (cells df "Total Sale")).

(** The rows whose cell in column [key] is [k]. *)
Definition rows_where (df : DataFrame) (key : string) (k : value) : list bool :=
  map (fun x => value_eqb x k) (cells df key).

(** Whether a date falls in a month, in a year. *)
Definition in_month (p : Period) (v : value) : bool :=
  match v with
  | Time t => (ts_year t =? p_year p) && (ts_month t =? p_month p)
  | _ => false
  end.

Definition in_year (y : Z) (v : value) : bool :=
  match v with
  | Time t => ts_year t =? y
  | _ => false
  end.

Definition result_map {A B : Type} (f : A -> B) (r : result A) : result B :=
  match r with
  | Ok a => Ok (f a)
  | Raise e => Raise e
  end.

(** The two lines that [print_console_table] prints. *)
Definition table_lines (pd : Pandas) (title : string) (df : DataFrame)
  : list string :=
  [(nl ++ "=== " ++ title ++ " ===")%string; to_string pd df].

(** The console of a complete report, after the loader's warnings. *)
Definition report_lines (pd : Pandas)
  (product_sales salesperson_sales monthly_sales ytd_sales : DataFrame)
  : list string :=
  table_lines pd "Total Sales per Product" product_sales ++
  table_lines pd "Total Sales per Salesperson" salesperson_sales ++
  table_lines pd "Monthly Sales Summary" monthly_sales ++
  table_lines pd "Year-to-Date Sales" ytd_sales.

Definition saved_line : string :=
  ("✅ Excel report saved as '" ++ OUTPUT_FILE ++ "'")%string.

Definition completed_line : string :=
  (nl ++ "🎯 Sales Report generation completed successfully!")%string.

(** The scenario's input, with an output file that cannot be written. *)
Definition env_locked : Env :=
  mkEnv (fun _ => CsvOk scenario) (Some "Permission denied").



(** * Properties *)

(** ** Cells *)

Lemma value_eqb_eq (a b : value) : value_eqb a b = true <-> a = b.
Proof.
  destruct a as [|x|x|[y1 m1 d1]|[y1 m1]], b as [|z|z|[y2 m2 d2]|[y2 m2]];
    simpl; try (split; [discriminate | congruence]); try tauto.
  - rewrite String.eqb_eq. split; congruence.
  - rewrite Z.eqb_eq. split; congruence.
  - unfold Timestamp_eqb; simpl.
    rewrite !andb_true_iff, !Z.eqb_eq. split.
    + intros [[-> ->] ->]. reflexivity.
    + intros H; inversion H; auto.
  - unfold Period_eqb; simpl.
    rewrite !andb_true_iff, !Z.eqb_eq. split.
    + intros [-> ->]. reflexivity.
    + intros H; inversion H; auto.
Qed.

Lemma value_eqb_refl (a : value) : value_eqb a a = true.
Proof. apply value_eqb_eq. reflexivity. Qed.

Lemma value_eqb_neq (a b : value) : value_eqb a b = false <-> a <> b.
Proof.
  split.
  - intros H E. apply value_eqb_eq in E. congruence.
  - intros H. destruct (value_eqb a b) eqn:E; [|reflexivity].
    apply value_eqb_eq in E. contradiction.
Qed.

Lemma lex_antisym (a b a' b' : comparison) :
  a' = CompOpp a -> b' = CompOpp b -> lex a' b' = CompOpp (lex a b).
Proof. intros -> ->. destruct a; reflexivity. Qed.

Lemma value_compare_antisym (a b : value) :
  value_compare b a = CompOpp (value_compare a b).
Proof.
  destruct a, b; simpl; try reflexivity.
  - apply String.compare_antisym.
  - apply Z.compare_antisym.
  - unfold Timestamp_compare.
    repeat apply lex_antisym; apply Z.compare_antisym.
  - unfold Period_compare.
    repeat apply lex_antisym; apply Z.compare_antisym.
Qed.

Lemma value_leb_total (a b : value) :
  value_leb a b = false -> value_leb b a = true.
Proof.
  unfold value_leb. rewrite (value_compare_antisym a b).
  destruct (value_compare a b); simpl; congruence.
Qed.

Lemma sort_key_leb_total (asc : bool) (a b : value) :
  sort_key_leb asc a b = false -> sort_key_leb asc b a = true.
Proof.
  unfold sort_key_leb.
  destruct a, b, asc; try congruence; try reflexivity;
    apply value_leb_total.
Qed.

(** ** Sorting *)

Section SortingFacts.
Context {A : Type}.
Variable leb : A -> A -> bool.

Lemma insert_sorted_perm (x : A) (l : list A) :
  Permutation (insert_sorted leb x l) (x :: l).
Proof.
  induction l as [|y l IH]; simpl.
  - apply Permutation_refl.
  - destruct (leb x y).
    + apply Permutation_refl.
    + apply Permutation_trans with (y :: x :: l).
      * apply perm_skip, IH.
      * apply perm_swap.
Qed.

Lemma stable_sort_perm (l : list A) : Permutation (stable_sort leb l) l.
Proof.
  induction l as [|x l IH]; simpl.
  - apply perm_nil.
  - apply Permutation_trans with (x :: stable_sort leb l).
    + apply insert_sorted_perm.
    + apply perm_skip, IH.
Qed.

Hypothesis leb_total : forall a b, leb a b = false -> leb b a = true.

Lemma insert_sorted_sorted (x : A) (l : list A) :
  Sorted (fun a b => leb a b = true) l ->
  Sorted (fun a b => leb a b = true) (insert_sorted leb x l).
Proof.
  induction l as [|y l IH]; simpl; intros Hs.
  - repeat constructor.
  - destruct (leb x y) eqn:E.
    + constructor; [assumption | constructor; assumption].
    + inversion Hs as [|? ? Hl Hd]; subst.
      constructor; [apply IH, Hl |].
      destruct l as [|z l]; simpl.
      * constructor. apply leb_total, E.
      * destruct (leb x z); constructor.
        -- apply leb_total, E.
        -- inversion Hd; assumption.
Qed.

Lemma stable_sort_sorted (l : list A) :
  Sorted (fun a b => leb a b = true) (stable_sort leb l).
Proof.
  induction l as [|x l IH]; simpl.
  - constructor.
  - apply insert_sorted_sorted, IH.
Qed.
End SortingFacts.

(** ** Sums *)

Lemma sum_values_perm (a b : Series) :
  Permutation a b -> sum_values a = sum_values b.
Proof.
  induction 1 as [|v a b _ IH|v v' a|a b c _ IH1 _ IH2]; simpl.
  - reflexivity.
  - destruct v; rewrite IH; reflexivity.
  - destruct v, v'; lia.
  - congruence.
Qed.

Lemma sum_values_point (g : value -> Z) (n : Z) (k0 : value) (ks : list value) :
  NoDup ks -> In k0 ks ->
  sum_values (map (fun k => Num (if value_eqb k0 k then n + g k else g k)) ks)
  = n + sum_values (map (fun k => Num (g k)) ks).
Proof.
  induction ks as [|k ks IH]; simpl; intros Hnd Hin; [contradiction|].
  inversion Hnd as [|? ? Hk Hnd']; subst.
  destruct Hin as [->|Hin].
  - rewrite value_eqb_refl.
    assert (E : map (fun k => Num (if value_eqb k0 k then n + g k else g k)) ks
                = map (fun k => Num (g k)) ks).
    { apply map_ext_in. intros k Hk'.
      destruct (value_eqb k0 k) eqn:E; [|reflexivity].
      apply value_eqb_eq in E. subst. contradiction. }
    rewrite E. lia.
  - destruct (value_eqb k0 k) eqn:E.
    + apply value_eqb_eq in E. subst. contradiction.
    + rewrite IH by assumption. lia.
Qed.

(** ** Groups *)

Lemma dedup_In (x : value) (l : list value) : In x (dedup l) <-> In x l.
Proof.
  induction l as [|y l IH]; simpl; [tauto|].
  rewrite filter_In, IH, negb_true_iff, value_eqb_neq.
  destruct (value_eqb x y) eqn:E.
  - apply value_eqb_eq in E. subst. tauto.
  - apply value_eqb_neq in E. split.
    + intros [H|[H _]]; auto.
    + intros [H|H]; auto.
Qed.

Lemma dedup_NoDup (l : list value) : NoDup (dedup l).
Proof.
  induction l as [|y l IH]; simpl; constructor.
  - rewrite filter_In, negb_true_iff, value_eqb_neq. tauto.
  - apply NoDup_filter, IH.
Qed.

Lemma group_sum_cons (k k0 v0 : value) (pairs : list (value * value)) :
  group_sum k ((k0, v0) :: pairs) =
  if value_eqb k0 k
  then match v0 with Num n => n | _ => 0 end + group_sum k pairs
  else group_sum k pairs.
Proof.
  unfold group_sum; simpl.
  destruct (value_eqb k0 k); simpl; [|reflexivity].
  destruct v0; reflexivity.
Qed.

(** Grouping preserves the grand total: the sums of the groups add up to
    the sum over all rows. *)
Lemma group_total (ks : list value) (pairs : list (value * value)) :
  NoDup ks ->
  (forall kv, In kv pairs -> In (fst kv) ks) ->
  sum_values (map (fun k => Num (group_sum k pairs)) ks)
  = sum_values (map snd pairs).
Proof.
  intros Hnd. induction pairs as [|[k0 v0] pairs IH]; intros Hin.
  - clear Hnd Hin. induction ks as [|k ks IHk]; simpl; [reflexivity|].
    unfold group_sum at 1; simpl. exact IHk.
  - assert (E : map (fun k => Num (group_sum k ((k0, v0) :: pairs))) ks
              = map (fun k => Num (if value_eqb k0 k
                                   then match v0 with Num n => n | _ => 0 end
                                        + group_sum k pairs
                                   else group_sum k pairs)) ks).
    { apply map_ext. intros k. rewrite group_sum_cons. reflexivity. }
    rewrite E, sum_values_point.
    + rewrite IH by (intros kv H; apply Hin; right; exact H).
      simpl. destruct v0; lia.
    + assumption.
    + apply (Hin (k0, v0)). left. reflexivity.
Qed.

Lemma keep_pairs (ks vs : Series) :
  map snd (filter (fun kv => notna (fst kv)) (combine ks vs))
  = keep (map notna ks) vs.
Proof.
  revert vs. induction ks as [|k ks IH]; intros [|v vs]; simpl; try reflexivity.
  destruct (notna k); simpl; rewrite IH; reflexivity.
Qed.

Lemma keep_all (m : list bool) (s : Series) :
  forallb id m = true -> (List.length s <= List.length m)%nat -> keep m s = s.
Proof.
  revert s. induction m as [|b m IH]; intros [|v s]; simpl; intros H L;
    try reflexivity; try lia.
  apply andb_true_iff in H. destruct H as [Hb Hm].
  unfold id in Hb. rewrite Hb, IH; [reflexivity | assumption | lia].
Qed.

(** ** Frames *)

Lemma getcol_setcol_same (df : DataFrame) (c : string) (s : Series) :
  getcol (setcol df c s) c = Some s.
Proof.
  induction df as [|[c' s'] df IH]; simpl.
  - rewrite String.eqb_refl. reflexivity.
  - destruct (String.eqb c' c) eqn:E; simpl; rewrite E; auto.
Qed.

Lemma getcol_setcol_other (df : DataFrame) (c c' : string) (s : Series) :
  c' <> c -> getcol (setcol df c s) c' = getcol df c'.
Proof.
  intros Hne. induction df as [|[c0 s0] df IH]; simpl.
  - apply String.eqb_neq in Hne. rewrite String.eqb_sym, Hne. reflexivity.
  - destruct (String.eqb c0 c) eqn:E; simpl.
    + apply String.eqb_eq in E. subst c0.
      assert (E' : String.eqb c c' = false)
        by (apply String.eqb_neq; congruence).
      rewrite E'. reflexivity.
    + destruct (String.eqb c0 c'); auto.
Qed.

Lemma getcol_map (f : Series -> Series) (df : DataFrame) (c : string) :
  getcol (map (fun cs => (fst cs, f (snd cs))) df) c
  = option_map f (getcol df c).
Proof.
  induction df as [|[c' s'] df IH]; simpl; [reflexivity|].
  destruct (String.eqb c' c); simpl; auto.
Qed.

Lemma getcol_mem (df : DataFrame) (c : string) :
  mem c (columns df) = true -> exists s, getcol df c = Some s.
Proof.
  unfold mem, columns.
  induction df as [|[c' s'] df IH]; simpl; [discriminate|].
  rewrite String.eqb_sym.
  destruct (String.eqb c' c); simpl; eauto.
Qed.

Lemma columns_setcol_new (df : DataFrame) (c : string) (s : Series) :
  mem c (columns df) = false -> setcol df c s = df ++ [(c, s)].
Proof.
  unfold mem, columns.
  induction df as [|[c' s'] df IH]; simpl; intros H; [reflexivity|].
  apply orb_false_iff in H. destruct H as [H1 H2].
  rewrite String.eqb_sym, H1, IH by assumption. reflexivity.
Qed.

Lemma cells_getcol (df : DataFrame) (c : string) (s : Series) :
  getcol df c = Some s -> cells df c = s.
Proof. unfold cells. intros ->. reflexivity. Qed.

Lemma rectangular_length (df : DataFrame) (c : string) (s : Series) :
  rectangular df = true -> getcol df c = Some s -> List.length s = nrows df.
Proof.
  unfold rectangular. generalize (nrows df) as n.
  induction df as [|[c' s'] df IH]; simpl; intros n H G; [discriminate|].
  apply andb_true_iff in H. destruct H as [H1 H2].
  destruct (String.eqb c' c).
  - inversion G; subst. apply Nat.eqb_eq, H1.
  - eapply IH; eassumption.
Qed.

(** ** Summaries *)

Lemma group_sums_total (pairs : list (value * value)) :
  sum_values (group_sums pairs (group_keys pairs)) = sum_values (map snd pairs).
Proof.
  unfold group_sums, group_keys. apply group_total.
  - apply (Permutation_NoDup (Permutation_sym (stable_sort_perm _ _))).
    apply dedup_NoDup.
  - intros kv H.
    apply (Permutation_in _ (Permutation_sym (stable_sort_perm _ _))).
    apply dedup_In. apply in_map, H.
Qed.

Lemma group_keys_notna (ks vs : Series) :
  forallb notna (group_keys (group_pairs ks vs)) = true.
Proof.
  apply forallb_forall. intros k H.
  apply (Permutation_in _ (stable_sort_perm _ _)) in H.
  apply (proj1 (dedup_In _ _)) in H. apply in_map_iff in H.
  destruct H as [[k' v] [E H]]. simpl in E. subst k'.
  unfold group_pairs in H. apply filter_In in H. apply H.
Qed.

Lemma map_snd_combine (keys s : Series) :
  List.length keys = List.length s -> map snd (combine keys s) = s.
Proof.
  revert s. induction keys as [|k keys IH]; intros [|v s]; simpl; intros L;
    try reflexivity; try discriminate.
  rewrite IH by lia. reflexivity.
Qed.

Lemma sort_column_perm (asc : bool) (keys s : Series) :
  List.length keys = List.length s -> Permutation (sort_column asc keys s) s.
Proof.
  intros L. unfold sort_column.
  rewrite <- (map_snd_combine keys s L) at 2.
  apply Permutation_map, stable_sort_perm.
Qed.

Lemma combine_diag (s : Series) :
  Forall (fun kv => fst kv = snd kv) (combine s s).
Proof. induction s; simpl; constructor; auto. Qed.

(** The key column itself comes out in the order of the sort. *)
Lemma sort_column_sorted (asc : bool) (keys : Series) :
  Sorted (fun a b => sort_key_leb asc a b = true) (sort_column asc keys keys).
Proof.
  unfold sort_column.
  set (leb := fun a b : value * value => sort_key_leb asc (fst a) (fst b)).
  assert (Hs : Sorted (fun a b => leb a b = true)
                      (stable_sort leb (combine keys keys))).
  { apply stable_sort_sorted. intros a b. apply sort_key_leb_total. }
  assert (Hd : Forall (fun kv => fst kv = snd kv)
                      (stable_sort leb (combine keys keys))).
  { apply (Permutation_Forall (Permutation_sym (stable_sort_perm _ _))).
    apply combine_diag. }
  induction Hs as [|[k v] l Hl IH Hh]; simpl; constructor.
  - apply IH. inversion Hd; assumption.
  - inversion Hd as [|? ? E Hd']; subst. simpl in E. subst v.
    destruct Hh as [|[k' v'] l' Hh]; simpl; constructor.
    inversion Hd' as [|? ? E' _]; subst. simpl in E'. subst v'.
    exact Hh.
Qed.

Lemma groupby_sum_eq (df : DataFrame) (key val : string) (ks vs : Series) :
  getcol df key = Some ks -> getcol df val = Some vs ->
  groupby_sum df key val =
  Ok [(key, group_keys (group_pairs ks vs));
      (val, group_sums (group_pairs ks vs) (group_keys (group_pairs ks vs)))].
Proof.
  intros Hk Hv. unfold groupby_sum, getitem. rewrite Hk, Hv. reflexivity.
Qed.

Lemma sort_values_by_val (key val : string) (a b : Series) (asc : bool) :
  key <> val ->
  sort_values [(key, a); (val, b)] val asc =
  Ok [(key, sort_column asc b a); (val, sort_column asc b b)].
Proof.
  intros Hne. unfold sort_values, getitem. simpl.
  apply String.eqb_neq in Hne. rewrite Hne, String.eqb_refl. reflexivity.
Qed.

Lemma sort_values_by_key (key val : string) (a b : Series) (asc : bool) :
  sort_values [(key, a); (val, b)] key asc =
  Ok [(key, sort_column asc a a); (val, sort_column asc a b)].
Proof.
  unfold sort_values, getitem. simpl. rewrite String.eqb_refl. reflexivity.
Qed.

Lemma group_sums_length (pairs : list (value * value)) (groups : Series) :
  List.length (group_sums pairs groups) = List.length groups.
Proof. apply length_map. Qed.

(** The sum of the group totals is the sum of the totals of the rows whose
    key is present. *)
Lemma group_sums_keyed (ks vs : Series) :
  sum_values (group_sums (group_pairs ks vs) (group_keys (group_pairs ks vs)))
  = sum_values (keep (map notna ks) vs).
Proof.
  rewrite group_sums_total. unfold group_pairs. rewrite keep_pairs. reflexivity.
Qed.

Lemma cleaned_inv (df : DataFrame) :
  cleaned df = true ->
  exists d p q u s t,
    getcol df "Date" = Some d /\ getcol df "Product" = Some p /\
    getcol df "Quantity" = Some q /\ getcol df "Unit Price" = Some u /\
    getcol df "Salesperson" = Some s /\ getcol df "Total Sale" = Some t /\
    rectangular df = true /\ forallb is_time d = true.
Proof.
  unfold cleaned. intros H. apply andb_true_iff in H. destruct H as [Hr H].
  destruct (getcol df "Date") as [d|]; [|discriminate].
  destruct (getcol df "Product") as [p|]; [|discriminate].
  destruct (getcol df "Quantity") as [q|]; [|discriminate].
  destruct (getcol df "Unit Price") as [u|]; [|discriminate].
  destruct (getcol df "Salesperson") as [s|]; [|discriminate].
  destruct (getcol df "Total Sale") as [t|]; [|discriminate].
  rewrite !andb_true_iff in H. destruct H as [[[Hd _] _] _].
  exists d, p, q, u, s, t. repeat split; auto.
Qed.

Lemma as_nums (l : Series) :
  Forall (fun v => is_num v = true) l -> exists ns, l = map Num ns.
Proof.
  induction 1 as [|v l Hv _ [ns ->]].
  - exists []. reflexivity.
  - destruct v; try discriminate. exists (n :: ns). reflexivity.
Qed.

Lemma as_periods (l : Series) :
  Forall (fun v => exists p, v = Per p) l -> exists ps, l = map Per ps.
Proof.
  induction 1 as [|v l [p ->] _ [ps ->]].
  - exists []. reflexivity.
  - exists (p :: ps). reflexivity.
Qed.

Lemma Sorted_map_inv {A B : Type} (f : A -> B) (R : B -> B -> Prop)
  (R' : A -> A -> Prop) (l : list A) :
  (forall a b, R (f a) (f b) -> R' a b) ->
  Sorted R (map f l) -> Sorted R' l.
Proof.
  intros HR. induction l as [|x l IH]; simpl; intros H; constructor.
  - apply IH. inversion H; assumption.
  - inversion H as [|? ? _ Hh]; subst.
    destruct l as [|y l]; simpl in *; constructor.
    apply HR. inversion Hh; assumption.
Qed.

Lemma group_sums_num (pairs : list (value * value)) (groups : Series) :
  Forall (fun v => is_num v = true) (group_sums pairs groups).
Proof.
  unfold group_sums. apply Forall_forall. intros v H.
  apply in_map_iff in H. destruct H as [k [<- _]]. reflexivity.
Qed.

Lemma desc_nums_sorted (ts : list Z) :
  Sorted (fun a b => sort_key_leb false a b = true) (map Num ts) ->
  StronglySorted Z.ge ts.
Proof.
  intros H. apply Sorted_StronglySorted.
  - intros a b c Hab Hbc. lia.
  - revert H. apply Sorted_map_inv. intros a b. simpl. unfold value_leb. simpl.
    destruct (Z.compare_spec b a); try discriminate; intros _; lia.
Qed.

Lemma asc_nums_sorted (ts : list Z) :
  Sorted (fun a b => sort_key_leb true a b = true) (map Num ts) ->
  StronglySorted Z.le ts.
Proof.
  intros H. apply Sorted_StronglySorted.
  - intros a b c Hab Hbc. lia.
  - revert H. apply Sorted_map_inv. intros a b. simpl. unfold value_leb. simpl.
    destruct (Z.compare_spec a b); try discriminate; intros _; lia.
Qed.

Lemma Period_compare_le (a b : Period) :
  Period_compare a b <> Gt -> Period_le a b.
Proof.
  unfold Period_compare, Period_le, lex.
  destruct (Z.compare_spec (p_year a) (p_year b));
    destruct (Z.compare_spec (p_month a) (p_month b)); intros Hgt;
    try congruence; lia.
Qed.

Lemma Period_le_trans (a b c : Period) :
  Period_le a b -> Period_le b c -> Period_le a c.
Proof. unfold Period_le. lia. Qed.

Lemma asc_periods_sorted (ps : list Period) :
  Sorted (fun a b => sort_key_leb true a b = true) (map Per ps) ->
  StronglySorted Period_le ps.
Proof.
  intros H. apply Sorted_StronglySorted.
  - intros a b c. apply Period_le_trans.
  - revert H. apply Sorted_map_inv. intros a b. simpl. unfold value_leb. simpl.
    intros H. apply Period_compare_le. intros E. rewrite E in H. discriminate.
Qed.

(** What a summary by total descending looks like. *)
Lemma by_total_summary (df : DataFrame) (key : string) (ks vs : Series) :
  key <> "Total Sale" ->
  getcol df key = Some ks -> getcol df "Total Sale" = Some vs ->
  exists (keys : Series) (ts : list Z),
    (g <- groupby_sum df key "Total Sale" ;;
     s <- sort_values g "Total Sale" false ;;
     Ok (mkCall s df))%result
    = Ok (mkCall [(key, keys); ("Total Sale", map Num ts)] df) /\
    forallb notna keys = true /\
    sum_values (map Num ts) = sum_values (keep (map notna ks) vs) /\
    StronglySorted Z.ge ts.
Proof.
  intros Hne Hk Hv.
  set (P := group_pairs ks vs). set (G := group_keys P).
  set (S := group_sums P G).
  assert (HS : Forall (fun v => is_num v = true) (sort_column false S S)).
  { apply (Permutation_Forall (Permutation_sym (sort_column_perm _ _ _ eq_refl))).
    apply group_sums_num. }
  destruct (as_nums _ HS) as [ts Hts].
  exists (sort_column false S G), ts. split; [|split; [|split]].
  - rewrite (groupby_sum_eq df key "Total Sale" ks vs Hk Hv). simpl.
    fold P. fold G. fold S. rewrite (sort_values_by_val _ _ _ _ _ Hne).
    simpl. rewrite Hts. reflexivity.
  - apply forallb_forall. intros k H.
    apply (Permutation_in _ (sort_column_perm false S G
             (group_sums_length P G))) in H.
    pose proof (group_keys_notna ks vs) as HG.
    rewrite forallb_forall in HG. apply HG, H.
  - rewrite <- Hts.
    rewrite (sum_values_perm _ _ (sort_column_perm false S S eq_refl)).
    apply group_sums_keyed.
  - apply desc_nums_sorted. rewrite <- Hts. apply sort_column_sorted.
Qed.

Lemma generate_product_sales_summary (df : DataFrame) (ks vs : Series) :
  getcol df "Product" = Some ks -> getcol df "Total Sale" = Some vs ->
  exists (keys : Series) (ts : list Z),
    generate_product_sales df
    = Ok (mkCall [("Product", keys); ("Total Sale", map Num ts)] df) /\
    forallb notna keys = true /\
    sum_values (map Num ts) = sum_values (keep (map notna ks) vs) /\
    StronglySorted Z.ge ts.
Proof. apply by_total_summary. discriminate. Qed.

Lemma generate_salesperson_sales_summary (df : DataFrame) (ks vs : Series) :
  getcol df "Salesperson" = Some ks -> getcol df "Total Sale" = Some vs ->
  exists (keys : Series) (ts : list Z),
    generate_salesperson_sales df
    = Ok (mkCall [("Salesperson", keys); ("Total Sale", map Num ts)] df) /\
    forallb notna keys = true /\
    sum_values (map Num ts) = sum_values (keep (map notna ks) vs) /\
    StronglySorted Z.ge ts.
Proof. apply by_total_summary. discriminate. Qed.

(** What a summary by key ascending looks like. *)
Lemma by_key_summary (df : DataFrame) (key : string) (ks vs : Series) :
  key <> "Total Sale" ->
  getcol df key = Some ks -> getcol df "Total Sale" = Some vs ->
  exists (keys : Series) (ts : list Z),
    (g <- groupby_sum df key "Total Sale" ;; sort_values g key true)%result
    = Ok [(key, keys); ("Total Sale", map Num ts)] /\
    Sorted (fun a b => sort_key_leb true a b = true) keys /\
    (forall k, In k keys -> In k ks /\ notna k = true) /\
    sum_values (map Num ts) = sum_values (keep (map notna ks) vs).
Proof.
  intros Hne Hk Hv.
  set (P := group_pairs ks vs). set (G := group_keys P).
  set (S := group_sums P G).
  assert (HL : List.length G = List.length S)
    by (symmetry; apply group_sums_length).
  assert (HS : Forall (fun v => is_num v = true) (sort_column true G S)).
  { apply (Permutation_Forall (Permutation_sym (sort_column_perm _ _ _ HL))).
    apply group_sums_num. }
  destruct (as_nums _ HS) as [ts Hts].
  exists (sort_column true G G), ts. split; [|split; [|split]].
  - rewrite (groupby_sum_eq df key "Total Sale" ks vs Hk Hv). simpl.
    fold P. fold G. fold S. rewrite sort_values_by_key, Hts. reflexivity.
  - apply sort_column_sorted.
  - intros k H.
    apply (Permutation_in _ (sort_column_perm true G G eq_refl)) in H.
    apply (Permutation_in _ (stable_sort_perm _ _)) in H.
    apply (proj1 (dedup_In _ _)) in H. apply in_map_iff in H.
    destruct H as [[k' v] [E H]]. simpl in E. subst k'.
    apply filter_In in H. destruct H as [H Hn]. split; [|exact Hn].
    apply in_combine_l in H. exact H.
  - rewrite <- Hts.
    rewrite (sum_values_perm _ _ (sort_column_perm true G S HL)).
    apply group_sums_keyed.
Qed.

Lemma generate_monthly_sales_summary (df : DataFrame) (ds vs : Series) :
  getcol df "Date" = Some ds -> getcol df "Total Sale" = Some vs ->
  exists (ps : list Period) (ts : list Z),
    generate_monthly_sales df
    = Ok (mkCall [("YearMonth", map (fun p => Str (Period_str p)) ps);
                  ("Total Sale", map Num ts)]
                 (setcol df "YearMonth" (dt_to_period_M ds))) /\
    sum_values (map Num ts)
    = sum_values (keep (map notna (dt_to_period_M ds)) vs) /\
    StronglySorted Period_le ps.
Proof.
  intros Hd Hv.
  set (df' := setcol df "YearMonth" (dt_to_period_M ds)).
  assert (Hk' : getcol df' "YearMonth" = Some (dt_to_period_M ds))
    by apply getcol_setcol_same.
  assert (Hv' : getcol df' "Total Sale" = Some vs)
    by (unfold df'; rewrite getcol_setcol_other by discriminate; exact Hv).
  destruct (by_key_summary df' "YearMonth" _ vs ltac:(discriminate) Hk' Hv')
    as (keys & ts & E & Hs & Hin & Hsum).
  assert (Hp : Forall (fun v => exists p, v = Per p) keys).
  { apply Forall_forall. intros k H. destruct (Hin k H) as [H1 H2].
    unfold dt_to_period_M in H1. apply in_map_iff in H1.
    destruct H1 as [v [<- _]]. destruct v; try discriminate. eauto. }
  destruct (as_periods _ Hp) as [ps ->].
  exists ps, ts. split; [|split].
  - unfold generate_monthly_sales, getitem. rewrite Hd. simpl. fold df'.
    destruct (groupby_sum df' "YearMonth" "Total Sale") as [g|e];
      simpl in E |- *; [|discriminate].
    rewrite E. simpl. unfold astype_str. rewrite map_map. reflexivity.
  - exact Hsum.
  - apply asc_periods_sorted, Hs.
Qed.

Lemma generate_ytd_sales_summary (df : DataFrame) (ds vs : Series) :
  getcol df "Date" = Some ds -> getcol df "Total Sale" = Some vs ->
  exists (ys ts : list Z),
    generate_ytd_sales df
    = Ok (mkCall [("Year", map Num ys); ("Total Sale", map Num ts)]
                 (setcol df "Year" (dt_year ds))) /\
    sum_values (map Num ts) = sum_values (keep (map notna (dt_year ds)) vs) /\
    StronglySorted Z.le ys.
Proof.
  intros Hd Hv.
  set (df' := setcol df "Year" (dt_year ds)).
  assert (Hk' : getcol df' "Year" = Some (dt_year ds))
    by apply getcol_setcol_same.
  assert (Hv' : getcol df' "Total Sale" = Some vs)
    by (unfold df'; rewrite getcol_setcol_other by discriminate; exact Hv).
  destruct (by_key_summary df' "Year" _ vs ltac:(discriminate) Hk' Hv')
    as (keys & ts & E & Hs & Hin & Hsum).
  assert (Hp : Forall (fun v => is_num v = true) keys).
  { apply Forall_forall. intros k H. destruct (Hin k H) as [H1 H2].
    unfold dt_year in H1. apply in_map_iff in H1.
    destruct H1 as [v [<- _]]. destruct v; try discriminate. reflexivity. }
  destruct (as_nums _ Hp) as [ys ->].
  exists ys, ts. split; [|split].
  - unfold generate_ytd_sales, getitem. rewrite Hd. simpl. fold df'.
    destruct (groupby_sum df' "Year" "Total Sale") as [g|e];
      simpl in E |- *; [|discriminate].
    rewrite E. reflexivity.
  - exact Hsum.
  - apply asc_nums_sorted, Hs.
Qed.





Lemma mask_and_true (n : nat) (m : list bool) :
  (List.length m <= n)%nat -> mask_and (repeat true n) m = m.
Proof.
  unfold mask_and. revert n.
  induction m as [|b m IH]; intros [|n] L; simpl in *; try reflexivity; try lia.
  rewrite IH by lia. reflexivity.
Qed.



(** The scenario of the specification, run through [main]: one date
    warning, then the four summaries, in the workbook as on the console. *)
Example scenario_report :
  main iso_pandas hash_order_id (env_of scenario) world0
  = (mkWorld
       [banner; date_warning 1;
        (nl ++ "=== Total Sales per Product ===")%string;
        "Product  Total Sale";
        (nl ++ "=== Total Sales per Salesperson ===")%string;
        "Salesperson  Total Sale";
        (nl ++ "=== Monthly Sales Summary ===")%string;
        "YearMonth  Total Sale";
        (nl ++ "=== Year-to-Date Sales ===")%string;
        "Year  Total Sale";
        "✅ Excel report saved as 'sales_report.xlsx'";
        (nl ++ "🎯 Sales Report generation completed successfully!")%string]
       (Saved
          [("Product Sales",
            [("Product", [Str "Widget"]); ("Total Sale", [Num 30])]);
           ("Salesperson Sales",
            [("Salesperson", [Str "Alice"; Str "Bob"]);
             ("Total Sale", [Num 20; Num 10])]);
           ("Monthly Sales",
            [("YearMonth", [Str "2024-01"; Str "2024-02"]);
             ("Total Sale", [Num 20; Num 10])]);
           ("YTD Sales",
            [("Year", [Num 2024]); ("Total Sale", [Num 30])])]),
     Ok tt).
Proof. vm_compute. reflexivity. Qed.

(** ** The aggregator's claims *)






(** C5.  For every cleaned table, the totals of the product summary and of
    the salesperson summary come in descending order, the months of the
    monthly summary in ascending chronological order, and the years of the
    yearly summary in ascending order. *)
Theorem summaries_are_sorted (df : DataFrame) :
  cleaned df = true ->
  exists p s m y : call,
    generate_product_sales df = Ok p /\
    generate_salesperson_sales df = Ok s /\
    generate_monthly_sales df = Ok m /\
    generate_ytd_sales df = Ok y /\
    (exists ts : list Z,
       cells (returned p) "Total Sale" = map Num ts /\
       StronglySorted Z.ge ts) /\
    (exists ts : list Z,
       cells (returned s) "Total Sale" = map Num ts /\
       StronglySorted Z.ge ts) /\
    (exists ps : list Period,
       cells (returned m) "YearMonth"
         = map (fun p => Str (Period_str p)) ps /\
       StronglySorted Period_le ps) /\
    (exists ys : list Z,
       cells (returned y) "Year" = map Num ys /\
       StronglySorted Z.le ys).
Proof.
  intros Hc.
  destruct (cleaned_inv df Hc)
    as (d & p & q & u & s & t & Gd & Gp & Gq & Gu & Gs & Gt & Hr & Hd).
  destruct (generate_product_sales_summary df p t Gp Gt)
    as (pk & pt & Ep & _ & _ & Op).
  destruct (generate_salesperson_sales_summary df s t Gs Gt)
    as (sk & st & Es & _ & _ & Os).
  destruct (generate_monthly_sales_summary df d t Gd Gt)
    as (mk & mt & Em & _ & Om).
  destruct (generate_ytd_sales_summary df d t Gd Gt)
    as (yk & yt & Ey & _ & Oy).
  do 4 eexists.
  split; [exact Ep|]. split; [exact Es|].
  split; [exact Em|]. split; [exact Ey|].
  simpl. repeat split.
  - exists pt. split; [reflexivity | exact Op].
  - exists st. split; [reflexivity | exact Os].
  - exists mk. split; [reflexivity | exact Om].
  - exists yk. split; [reflexivity | exact Oy].
Qed.

Lemma summaries_are_sorted_witness :
  cleaned scenario_cleaned = true /\
  exists p : call,
    generate_product_sales scenario_cleaned = Ok p /\
    exists ts : list Z,
      cells (returned p) "Total Sale" = map Num ts /\ StronglySorted Z.ge ts.
Proof.
  split; [reflexivity|].
  destruct (summaries_are_sorted scenario_cleaned eq_refl)
    as (p & s & m & y & Hp & _ & _ & _ & Op & _).
  exists p. split; assumption.
Defined.

(** C4 (as amended).  For every cleaned table, [generate_product_sales] and
    [generate_salesperson_sales] leave the table they are given as it was.
    [generate_monthly_sales] assigns the column YearMonth of that table, and
    [generate_ytd_sales] its column Year, to a key derived from the dates:
    the column is added as the last one when the table has none of that
    name, and every other column is as it was. *)
Theorem aggregation_frame (df : DataFrame) :
  cleaned df = true ->
  exists p s m y : call,
    generate_product_sales df = Ok p /\
    generate_salesperson_sales df = Ok s /\
    generate_monthly_sales df = Ok m /\
    generate_ytd_sales df = Ok y /\
    arg_after p = df /\
    arg_after s = df /\
    arg_after m = setcol df "YearMonth" (dt_to_period_M (cells df "Date")) /\
    arg_after y = setcol df "Year" (dt_year (cells df "Date")) /\
    (forall c, c <> "YearMonth" -> getcol (arg_after m) c = getcol df c) /\
    (forall c, c <> "Year" -> getcol (arg_after y) c = getcol df c) /\
    (mem "YearMonth" (columns df) = false ->
     arg_after m = df ++ [("YearMonth", dt_to_period_M (cells df "Date"))]) /\
    (mem "Year" (columns df) = false ->
     arg_after y = df ++ [("Year", dt_year (cells df "Date"))]).
Proof.
  intros Hc.
  destruct (cleaned_inv df Hc)
    as (d & p & q & u & s & t & Gd & Gp & Gq & Gu & Gs & Gt & Hr & Hd).
  destruct (generate_product_sales_summary df p t Gp Gt)
    as (pk & pt & Ep & _).
  destruct (generate_salesperson_sales_summary df s t Gs Gt)
    as (sk & st & Es & _).
  destruct (generate_monthly_sales_summary df d t Gd Gt)
    as (mk & mt & Em & _).
  destruct (generate_ytd_sales_summary df d t Gd Gt)
    as (yk & yt & Ey & _).
  do 4 eexists.
  split; [exact Ep|]. split; [exact Es|].
  split; [exact Em|]. split; [exact Ey|].
  simpl. rewrite (cells_getcol _ _ _ Gd). repeat split.
  - intros c Hne. apply getcol_setcol_other, Hne.
  - intros c Hne. apply getcol_setcol_other, Hne.
  - apply columns_setcol_new.
  - apply columns_setcol_new.
Qed.

Lemma aggregation_frame_witness :
  cleaned scenario_cleaned = true /\
  exists m : call,
    generate_monthly_sales scenario_cleaned = Ok m /\
    arg_after m
    = scenario_cleaned ++
      [("YearMonth", dt_to_period_M (cells scenario_cleaned "Date"))].
Proof.
  split; [reflexivity|].
  destruct (aggregation_frame scenario_cleaned eq_refl)
    as (p & s & m & y & _ & _ & Hm & _ & _ & _ & _ & _ & _ & _ & Em & _).
  exists m. split; [exact Hm | apply Em; reflexivity].
Defined.

(** C4 (as stated) fails: after [generate_monthly_sales] the cleaned table of
    the scenario has one column more, YearMonth; after [generate_ytd_sales]
    it has the column Year. *)
Lemma aggregation_mutates_its_argument :
  cleaned scenario_cleaned = true /\
  (exists m : call,
     generate_monthly_sales scenario_cleaned = Ok m /\
     arg_after m <> scenario_cleaned /\
     columns (arg_after m) = columns scenario_cleaned ++ ["YearMonth"]) /\
  (exists y : call,
     generate_ytd_sales scenario_cleaned = Ok y /\
     arg_after y <> scenario_cleaned /\
     columns (arg_after y) = columns scenario_cleaned ++ ["Year"]).
Proof.
  split; [reflexivity|]. split.
  - eexists. split; [vm_compute; reflexivity|]. simpl.
    split; [discriminate | reflexivity].
  - eexists. split; [vm_compute; reflexivity|]. simpl.
    split; [discriminate | reflexivity].
Qed.

(** ** Masks and shapes *)

Lemma count_na_map (s : Series) : count_na s = count_true (map isna s).
Proof.
  unfold count_na, count_true.
  induction s as [|v s IH]; simpl; [reflexivity|].
  unfold id at 1. destruct (isna v); simpl; rewrite IH; reflexivity.
Qed.

Lemma keep_map {A B : Type} (f : A -> B) (m : list bool) (s : list A) :
  keep m (map f s) = map f (keep m s).
Proof.
  revert s. induction m as [|b m IH]; intros [|v s]; simpl; try reflexivity.
  destruct b; simpl; rewrite IH; reflexivity.
Qed.

Lemma keep_nil {A : Type} (m : list bool) : keep m (@nil A) = [].
Proof. destruct m; reflexivity. Qed.

Lemma keep_mask_and (m a b : list bool) :
  keep m (mask_and a b) = mask_and (keep m a) (keep m b).
Proof.
  unfold mask_and. revert a b.
  induction m as [|x m IH]; intros [|y a] [|z b]; simpl; try reflexivity.
  - rewrite combine_nil. reflexivity.
  - destruct x; simpl; rewrite IH; reflexivity.
Qed.

Lemma keep_keep {A : Type} (m m' : list bool) (s : list A) :
  keep (keep m m') (keep m s) = keep (mask_and m m') s.
Proof.
  unfold mask_and. revert m' s.
  induction m as [|x m IH]; intros [|y m'] [|v s]; simpl; try reflexivity.
  - apply keep_nil.
  - destruct x; simpl; [destruct y|]; rewrite IH; reflexivity.
Qed.

Lemma keep_count {A : Type} (m : list bool) (s : list A) :
  List.length m = List.length s -> List.length (keep m s) = count_true m.
Proof.
  unfold count_true. revert s.
  induction m as [|x m IH]; intros [|v s]; simpl; intros L;
    try reflexivity; try discriminate.
  unfold id at 1. destruct x; simpl; rewrite IH by lia; reflexivity.
Qed.

Lemma count_na_keep (m : list bool) (s : Series) :
  count_na (keep m s) = count_true (mask_and m (map isna s)).
Proof.
  unfold count_na, count_true, mask_and. revert s.
  induction m as [|b m IH]; intros [|v s]; simpl; try reflexivity.
  unfold id at 1. destruct b; simpl; [destruct (isna v); simpl|];
    rewrite IH; reflexivity.
Qed.

Lemma count_true_zero (m : list bool) :
  count_true m = 0%nat -> forallb id (map negb m) = true.
Proof.
  unfold count_true. induction m as [|b m IH]; simpl; [reflexivity|].
  unfold id at 1 3. destruct b; simpl; [discriminate | exact IH].
Qed.

Lemma keep_length (m : list bool) (s s' : Series) :
  List.length s = List.length s' ->
  List.length (keep m s) = List.length (keep m s').
Proof.
  revert s s'. induction m as [|b m IH]; intros [|v s] [|v' s']; simpl;
    intros L; try reflexivity; try discriminate.
  destruct b; simpl; rewrite (IH s s') by lia; reflexivity.
Qed.

(** A frame all of whose columns have [n] cells. *)
Lemma rectangular_shape (df : DataFrame) :
  rectangular df = true <->
  Forall (fun cs => List.length (snd cs) = nrows df) df.
Proof.
  unfold rectangular. rewrite forallb_forall, Forall_forall.
  split; intros H cs Hin; [apply Nat.eqb_eq | apply Nat.eqb_eq]; auto.
Qed.

Lemma shape_nrows (n : nat) (df : DataFrame) :
  Forall (fun cs => List.length (snd cs) = n) df -> df <> [] -> nrows df = n.
Proof.
  destruct df as [|[c s] df]; [congruence|].
  intros H _. inversion H; subst. reflexivity.
Qed.

Lemma shape_getcol (n : nat) (df : DataFrame) (c : string) (s : Series) :
  Forall (fun cs => List.length (snd cs) = n) df ->
  getcol df c = Some s -> List.length s = n.
Proof.
  induction 1 as [|[c' s'] df Hs _ IH]; simpl; [discriminate|].
  destruct (String.eqb c' c); [|exact IH].
  intros E. inversion E; subst s'. exact Hs.
Qed.

Lemma shape_setcol (n : nat) (df : DataFrame) (c : string) (s : Series) :
  Forall (fun cs => List.length (snd cs) = n) df ->
  List.length s = n ->
  Forall (fun cs => List.length (snd cs) = n) (setcol df c s).
Proof.
  intros H L. induction H as [|[c' s'] df H' Hdf IH]; simpl.
  - repeat constructor. exact L.
  - destruct (String.eqb c' c); constructor; auto.
Qed.

Lemma shape_take_rows (n : nat) (m : list bool) (df : DataFrame) :
  Forall (fun cs => List.length (snd cs) = n) df ->
  Forall (fun cs => List.length (snd cs) = List.length (keep m (repeat NaN n)))
         (take_rows m df).
Proof.
  intros H. unfold take_rows. apply Forall_map.
  eapply Forall_impl; [|exact H]. intros [c s] L. simpl in *.
  apply keep_length. rewrite repeat_length. exact L.
Qed.

Lemma shape_rectangular (n : nat) (df : DataFrame) :
  Forall (fun cs => List.length (snd cs) = n) df -> rectangular df = true.
Proof.
  intros H. apply rectangular_shape. destruct df as [|cs df]; [constructor|].
  rewrite (shape_nrows n (cs :: df) H) by discriminate. exact H.
Qed.

Lemma setcol_nonempty (df : DataFrame) (c : string) (s : Series) :
  setcol df c s <> [].
Proof.
  destruct df as [|[c' s'] df]; simpl; [discriminate|].
  destruct (String.eqb c' c); discriminate.
Qed.

Lemma take_rows_all (n : nat) (m : list bool) (df : DataFrame) :
  Forall (fun cs => List.length (snd cs) = n) df ->
  forallb id m = true -> (n <= List.length m)%nat ->
  take_rows m df = df.
Proof.
  intros H Hm L. unfold take_rows.
  induction H as [|[c s] df Hs _ IH]; simpl; [reflexivity|].
  simpl in Hs. rewrite IH, keep_all by (try assumption; lia). reflexivity.
Qed.

Lemma getcol_take_rows (m : list bool) (df : DataFrame) (c : string) :
  getcol (take_rows m df) c = option_map (keep m) (getcol df c).
Proof. apply (getcol_map (keep m)). Qed.

(** ** Running the loader *)

Lemma world_eta (w : World) : mkWorld (stdout w ++ []) (xlsx w) = w.
Proof. destruct w. simpl. rewrite app_nil_r. reflexivity. Qed.

(** The guarded [dropna] of the loader: when the count is zero no row has a
    missing cell, and leaving the frame as it is amounts to dropping. *)
Lemma guarded_dropna (k : nat) (df : DataFrame) (subset : list string)
  (mask : list bool) (line : string) (w : World) :
  dropna df subset = Ok (take_rows mask df) ->
  (k = 0%nat -> take_rows mask df = df) ->
  (if (0 <? k)%nat
   then (print line ;; lift (dropna df subset))%prog
   else ret df) w
  = (mkWorld (stdout w ++ (if (0 <? k)%nat then [line] else [])) (xlsx w),
     Ok (take_rows mask df)).
Proof.
  intros Hd Hz. destruct k as [|k]; simpl.
  - rewrite Hz by reflexivity. unfold ret. rewrite world_eta. reflexivity.
  - unfold bind, print, lift. rewrite Hd. reflexivity.
Qed.

Lemma dropna_one (n : nat) (df : DataFrame) (c : string) (s : Series) :
  Forall (fun cs => List.length (snd cs) = n) df ->
  getcol df c = Some s ->
  dropna df [c] = Ok (take_rows (map notna s) df).
Proof.
  intros H G. unfold dropna. simpl. unfold getitem. rewrite G. simpl.
  assert (df <> []) by (intros ->; discriminate).
  rewrite mask_and_true; [reflexivity|].
  rewrite length_map, (shape_getcol n df c s H G), (shape_nrows n df H); auto.
Qed.

Lemma dropna_two (n : nat) (df : DataFrame) (c1 c2 : string) (s1 s2 : Series) :
  Forall (fun cs => List.length (snd cs) = n) df ->
  getcol df c1 = Some s1 -> getcol df c2 = Some s2 ->
  dropna df [c1; c2]
  = Ok (take_rows (mask_and (map notna s1) (map notna s2)) df).
Proof.
  intros H G1 G2. unfold dropna. simpl. unfold getitem. rewrite G1, G2. simpl.
  assert (df <> []) by (intros ->; discriminate).
  rewrite mask_and_true; [reflexivity|].
  rewrite length_map, (shape_getcol n df c1 s1 H G1), (shape_nrows n df H); auto.
Qed.

Lemma getitem_ok (df : DataFrame) (c : string) (s : Series) :
  getcol df c = Some s -> getitem df c = Ok s.
Proof. unfold getitem. intros ->. reflexivity. Qed.

Lemma notna_map (s : Series) : map notna s = map negb (map isna s).
Proof. rewrite map_map. reflexivity. Qed.

Lemma count_na_zero (s : Series) :
  count_na s = 0%nat -> forallb id (map notna s) = true.
Proof.
  rewrite count_na_map, notna_map. apply count_true_zero.
Qed.

Lemma mask_and_all (a b : list bool) :
  forallb id a = true -> forallb id b = true ->
  forallb id (mask_and a b) = true.
Proof.
  unfold mask_and. revert b.
  induction a as [|x a IH]; intros [|y b]; simpl; try reflexivity.
  intros Ha Hb. apply andb_true_iff in Ha, Hb.
  destruct Ha as [Hx Ha], Hb as [Hy Hb]. unfold id in Hx, Hy. subst.
  simpl. apply IH; assumption.
Qed.

Lemma mask_and_length (a b : list bool) :
  List.length a = List.length b ->
  List.length (mask_and a b) = List.length a.
Proof.
  intros L. unfold mask_and. rewrite length_map, length_combine. lia.
Qed.

Lemma forallb_keep {A : Type} (f : A -> bool) (m : list bool) (s : list A) :
  forallb f s = true -> forallb f (keep m s) = true.
Proof.
  revert s. induction m as [|b m IH]; intros [|v s]; simpl; try reflexivity.
  intros H. apply andb_true_iff in H. destruct H as [Hv Hs].
  destruct b; simpl; [rewrite Hv|]; apply IH, Hs.
Qed.

Lemma to_datetime_kept (pd : Pandas) (s : Series) (m : list bool) :
  forallb is_time
    (keep (mask_and (map notna (to_datetime pd s)) m) (to_datetime pd s))
  = true.
Proof.
  unfold to_datetime. generalize (infer_format pd s) as f. intros f.
  unfold mask_and. revert m.
  induction s as [|v s IH]; intros [|b m]; simpl; try reflexivity.
  destruct (parse_datetime pd f v); simpl; [destruct b; simpl|]; apply IH.
Qed.

Lemma to_numeric_kept_l (pd : Pandas) (s : Series) (m : list bool) :
  forallb is_num
    (keep (mask_and (map notna (to_numeric pd s)) m) (to_numeric pd s))
  = true.
Proof.
  unfold to_numeric, mask_and. revert m.
  induction s as [|v s IH]; intros [|b m]; simpl; try reflexivity.
  destruct (parse_numeric pd v); simpl; [destruct b; simpl|]; apply IH.
Qed.

Lemma to_numeric_kept_r (pd : Pandas) (s : Series) (m : list bool) :
  forallb is_num
    (keep (mask_and m (map notna (to_numeric pd s))) (to_numeric pd s))
  = true.
Proof.
  unfold to_numeric, mask_and. revert m.
  induction s as [|v s IH]; intros [|b m]; simpl; try reflexivity.
  destruct (parse_numeric pd v), b; simpl; apply IH.
Qed.

Lemma mask_and_diag (m : list bool) : mask_and m m = m.
Proof.
  unfold mask_and. induction m as [|b m IH]; simpl; [reflexivity|].
  rewrite IH. destruct b; reflexivity.
Qed.

Lemma series_eqb_refl (s : Series) : series_eqb s s = true.
Proof.
  induction s as [|v s IH]; simpl; [reflexivity|].
  rewrite value_eqb_refl. exact IH.
Qed.

Lemma series_mul_length (a b : Series) :
  List.length a = List.length b ->
  List.length (series_mul a b) = List.length a.
Proof.
  intros L. unfold series_mul. rewrite length_map, length_combine. lia.
Qed.

Lemma required_present (df : DataFrame) :
  issubset required_columns (columns df) = true ->
  exists d p q u s,
    getcol df "Date" = Some d /\ getcol df "Product" = Some p /\
    getcol df "Quantity" = Some q /\ getcol df "Unit Price" = Some u /\
    getcol df "Salesperson" = Some s.
Proof.
  unfold issubset, required_columns. simpl. rewrite !andb_true_iff.
  intros (Hd & Hp & Hq & Hu & Hs & _).
  destruct (getcol_mem _ _ Hd) as [d Gd]. destruct (getcol_mem _ _ Hp) as [p Gp].
  destruct (getcol_mem _ _ Hq) as [q Gq]. destruct (getcol_mem _ _ Hu) as [u Gu].
  destruct (getcol_mem _ _ Hs) as [s Gs].
  exists d, p, q, u, s. auto.
Qed.

(** The loader on a table that has the required columns: the warnings it
    prints, and the table it returns, column by column. *)
Lemma read_sales_data_run (pd : Pandas) (h : HashOrder) (env : Env)
  (path : string) (df : DataFrame) (w : World) :
  read_csv env path = CsvOk df ->
  issubset required_columns (columns df) = true ->
  rectangular df = true ->
  exists out : DataFrame,
    read_sales_data pd h env path w
    = (mkWorld (stdout w ++ date_lines pd df ++ numeric_lines pd df) (xlsx w),
       Ok out) /\
    cleaned out = true /\
    getcol out "Date"
      = Some (keep (valid_rows pd df) (to_datetime pd (cells df "Date"))) /\
    getcol out "Quantity"
      = Some (keep (valid_rows pd df) (to_numeric pd (cells df "Quantity"))) /\
    getcol out "Unit Price"
      = Some (keep (valid_rows pd df) (to_numeric pd (cells df "Unit Price"))) /\
    (forall c, c <> "Date" -> c <> "Quantity" -> c <> "Unit Price" ->
               c <> "Total Sale" ->
               getcol out c = option_map (keep (valid_rows pd df)) (getcol df c)) /\
    nrows out = count_true (valid_rows pd df).
Proof.
  intros Hcsv Hsub Hrect.
  destruct (required_present df Hsub) as (d & p & q & u & s & Gd & Gp & Gq & Gu & Gs).
  apply rectangular_shape in Hrect.
  set (n := nrows df) in *.
  set (d' := to_datetime pd d).
  set (df1 := setcol df "Date" d').
  assert (Ld : List.length d' = n).
  { unfold d', to_datetime. rewrite length_map. apply (shape_getcol n df _ _ Hrect Gd). }
  assert (S1 : Forall (fun cs => List.length (snd cs) = n) df1)
    by (apply shape_setcol; assumption).
  assert (G1d : getcol df1 "Date" = Some d') by apply getcol_setcol_same.
  set (m1 := map notna d').
  set (df2 := take_rows m1 df1).
  set (n2 := List.length (keep m1 (repeat NaN n))).
  assert (S2 : Forall (fun cs => List.length (snd cs) = n2) df2)
    by (apply shape_take_rows; assumption).
  assert (G2 : forall c, c <> "Date" -> getcol df2 c = option_map (keep m1) (getcol df c)).
  { intros c Hc. unfold df2. rewrite getcol_take_rows. unfold df1.
    rewrite getcol_setcol_other by assumption. reflexivity. }
  set (q4 := to_numeric pd (keep m1 q)).
  set (u4 := to_numeric pd (keep m1 u)).
  set (df3 := setcol df2 "Quantity" q4).
  set (df4 := setcol df3 "Unit Price" u4).
  unfold read_sales_data. rewrite Hcsv, Hsub. cbn [negb].
  unfold bind at 1. unfold lift at 1. rewrite (getitem_ok _ _ _ Gd).
  fold d'. fold df1.
  unfold bind at 1. unfold lift at 1. rewrite (getitem_ok _ _ _ G1d).
  unfold bind at 1.
  assert (HdA : dropna df1 ["Date"] = Ok (take_rows m1 df1))
    by (apply (dropna_one n); assumption).
  assert (HzA : count_na d' = 0%nat -> take_rows m1 df1 = df1).
  { intros Z. apply (take_rows_all n); try assumption.
    - apply count_na_zero, Z.
    - unfold m1. rewrite length_map. lia. }
  rewrite (guarded_dropna _ _ _ m1 _ w HdA HzA). fold df2.
  assert (G2q : getcol df2 "Quantity" = Some (keep m1 q))
    by (rewrite G2, Gq by discriminate; reflexivity).
  assert (G2u : getcol df2 "Unit Price" = Some (keep m1 u))
    by (rewrite G2, Gu by discriminate; reflexivity).
  assert (L2q : List.length (keep m1 q) = n2).
  { apply (shape_getcol n2 df2 _ _ S2 G2q). }
  assert (L2u : List.length (keep m1 u) = n2).
  { apply (shape_getcol n2 df2 _ _ S2 G2u). }
  assert (Lq4 : List.length q4 = n2)
    by (unfold q4, to_numeric; rewrite length_map; exact L2q).
  assert (Lu4 : List.length u4 = n2)
    by (unfold u4, to_numeric; rewrite length_map; exact L2u).
  assert (S4 : Forall (fun cs => List.length (snd cs) = n2) df4)
    by (repeat apply shape_setcol; assumption).
  assert (G3u : getcol df3 "Unit Price" = Some (keep m1 u))
    by (unfold df3; rewrite getcol_setcol_other by discriminate; exact G2u).
  assert (G4q : getcol df4 "Quantity" = Some q4).
  { unfold df4. rewrite getcol_setcol_other by discriminate.
    apply getcol_setcol_same. }
  assert (G4u : getcol df4 "Unit Price" = Some u4) by apply getcol_setcol_same.
  unfold bind at 1. unfold lift at 1. rewrite (getitem_ok _ _ _ G2q).
  fold q4. fold df3.
  unfold bind at 1. unfold lift at 1. rewrite (getitem_ok _ _ _ G3u).
  fold u4. fold df4.
  unfold bind at 1. unfold lift at 1. rewrite (getitem_ok _ _ _ G4q).
  unfold bind at 1. unfold lift at 1. rewrite (getitem_ok _ _ _ G4u).
  set (m2 := mask_and (map notna q4) (map notna u4)).
  assert (HdB : dropna df4 ["Quantity"; "Unit Price"] = Ok (take_rows m2 df4))
    by (apply (dropna_two n2); assumption).
  assert (HzB : (count_na q4 + count_na u4 = 0)%nat -> take_rows m2 df4 = df4).
  { intros Z. apply (take_rows_all n2); try assumption.
    - apply mask_and_all; apply count_na_zero; lia.
    - unfold m2. rewrite mask_and_length; rewrite !length_map; lia. }
  unfold bind at 1.
  rewrite (guarded_dropna _ _ _ m2 _ _ HdB HzB).
  set (df5 := take_rows m2 df4).
  set (n5 := List.length (keep m2 (repeat NaN n2))).
  assert (S5 : Forall (fun cs => List.length (snd cs) = n5) df5)
    by (apply shape_take_rows; assumption).
  assert (G5 : forall c, getcol df5 c = option_map (keep m2) (getcol df4 c))
    by (intros c; apply getcol_take_rows).
  assert (G5q : getcol df5 "Quantity" = Some (keep m2 q4))
    by (rewrite G5, G4q; reflexivity).
  assert (G5u : getcol df5 "Unit Price" = Some (keep m2 u4))
    by (rewrite G5, G4u; reflexivity).
  unfold bind at 1. unfold lift at 1. rewrite (getitem_ok _ _ _ G5q).
  unfold bind at 1. unfold lift at 1. rewrite (getitem_ok _ _ _ G5u).
  unfold ret. cbn [stdout xlsx].
  set (out := setcol df5 "Total Sale" (series_mul (keep m2 q4) (keep m2 u4))).
  assert (Eg : m1 = good_dates pd df).
  { unfold good_dates, bad_dates. rewrite (cells_getcol _ _ _ Gd).
    apply notna_map. }
  assert (Go : forall c, c <> "Total Sale" ->
                         getcol out c = option_map (keep m2) (getcol df4 c)).
  { intros c Hc. unfold out. rewrite getcol_setcol_other by assumption.
    apply G5. }
  assert (G4 : forall c, c <> "Quantity" -> c <> "Unit Price" ->
                         getcol df4 c = getcol df2 c).
  { intros c H1 H2. unfold df4, df3.
    rewrite !getcol_setcol_other by assumption. reflexivity. }
  assert (Ev : forall (A : Type) (x : list A),
             keep m2 (keep m1 x) = keep (valid_rows pd df) x).
  { intros A x. unfold m2, q4, u4, to_numeric, valid_rows, bad_numbers.
    rewrite (cells_getcol _ _ _ Gq), (cells_getcol _ _ _ Gu), <- Eg.
    rewrite <- !keep_map, <- keep_mask_and, keep_keep, <- !notna_map.
    reflexivity. }
  assert (Lq : List.length q = n) by apply (shape_getcol n df _ _ Hrect Gq).
  assert (Lu : List.length u = n) by apply (shape_getcol n df _ _ Hrect Gu).
  exists out. split; [|split; [|split; [|split; [|split; [|split]]]]].
  - f_equal. f_equal. rewrite <- app_assoc. f_equal.
    assert (Ed : count_na d' = date_tally pd df).
    { unfold date_tally, bad_dates. rewrite (cells_getcol _ _ _ Gd).
      apply count_na_map. }
    assert (En : (count_na q4 + count_na u4)%nat = numeric_tally pd df).
    { unfold numeric_tally, bad_numbers, q4, u4.
      rewrite (cells_getcol _ _ _ Gq), (cells_getcol _ _ _ Gu), <- Eg.
      unfold to_numeric. rewrite <- !keep_map, !count_na_keep. reflexivity. }
    rewrite Ed, En. reflexivity.
  - assert (L5 : List.length (keep m2 q4) = n5)
      by (apply (shape_getcol n5 df5 _ _ S5 G5q)).
    assert (L5u : List.length (keep m2 u4) = n5)
      by (apply (shape_getcol n5 df5 _ _ S5 G5u)).
    unfold cleaned.
    rewrite (shape_rectangular n5 out)
      by (apply shape_setcol;
          [assumption | rewrite series_mul_length; congruence]).
    rewrite (Go "Date"), (Go "Product"), (Go "Quantity"), (Go "Unit Price"),
      (Go "Salesperson") by discriminate.
    rewrite (G4 "Date"), (G4 "Product"), (G4 "Salesperson") by discriminate.
    rewrite G4q, G4u.
    unfold df2 at 1. rewrite getcol_take_rows, G1d.
    rewrite (G2 "Product"), (G2 "Salesperson") by discriminate.
    rewrite Gp, Gs.
    unfold out at 1. rewrite getcol_setcol_same. cbn [option_map andb].
    rewrite series_eqb_refl, andb_true_r.
    rewrite !andb_true_iff. repeat split.
    + apply forallb_keep. unfold m1. rewrite <- (mask_and_diag (map notna d')).
      apply to_datetime_kept.
    + apply to_numeric_kept_l.
    + apply to_numeric_kept_r.
  - rewrite (Go "Date"), (G4 "Date") by discriminate.
    unfold df2. rewrite getcol_take_rows, G1d. cbn [option_map].
    rewrite Ev, (cells_getcol _ _ _ Gd). reflexivity.
  - rewrite (Go "Quantity"), G4q by discriminate. cbn [option_map].
    unfold q4, to_numeric. rewrite <- keep_map, Ev, (cells_getcol _ _ _ Gq).
    reflexivity.
  - rewrite (Go "Unit Price"), G4u by discriminate. cbn [option_map].
    unfold u4, to_numeric. rewrite <- keep_map, Ev, (cells_getcol _ _ _ Gu).
    reflexivity.
  - intros c H1 H2 H3 H4.
    rewrite (Go c), (G4 c), (G2 c) by assumption.
    destruct (getcol df c) as [x|]; cbn [option_map]; [|reflexivity].
    rewrite Ev. reflexivity.
  - rewrite (shape_nrows n5 out).
    + rewrite <- (shape_getcol n5 df5 _ _ S5 G5q).
      unfold q4, to_numeric. rewrite <- keep_map, Ev.
      apply keep_count. unfold valid_rows, good_dates, bad_dates, bad_numbers.
      rewrite (cells_getcol _ _ _ Gd), (cells_getcol _ _ _ Gq),
        (cells_getcol _ _ _ Gu).
      fold d'. unfold to_numeric.
      rewrite !mask_and_length; rewrite ?mask_and_length, !length_map;
        rewrite ?length_map; lia.
    + apply shape_setcol; [assumption|].
      rewrite series_mul_length;
        [apply (shape_getcol n5 df5 _ _ S5 G5q)|].
      rewrite (shape_getcol n5 df5 _ _ S5 G5q),
        (shape_getcol n5 df5 _ _ S5 G5u). reflexivity.
    + apply setcol_nonempty.
Qed.

(** ** The output file *)

Lemma keeps_file_ret {A : Type} (a : A) : keeps_file (ret a).
Proof. intros w. reflexivity. Qed.

Lemma keeps_file_lift {A : Type} (r : result A) : keeps_file (lift r).
Proof. intros w. reflexivity. Qed.

Lemma keeps_file_print (line : string) : keeps_file (print line).
Proof. intros w. reflexivity. Qed.

Lemma keeps_file_sys_exit {A : Type} (msg : string) :
  keeps_file (@sys_exit A msg).
Proof. intros w. reflexivity. Qed.

Lemma keeps_file_bind {A B : Type} (m : M A) (k : A -> M B) :
  keeps_file m -> (forall a, keeps_file (k a)) -> keeps_file (bind m k).
Proof.
  intros Hm Hk w. unfold bind. specialize (Hm w).
  destruct (m w) as [w' [a|e]]; simpl in *.
  - rewrite Hk. exact Hm.
  - exact Hm.
Qed.

Ltac keeps_file_tac :=
  repeat first
    [ apply keeps_file_ret
    | apply keeps_file_lift
    | apply keeps_file_print
    | apply keeps_file_sys_exit
    | apply keeps_file_bind; [|intros]
    | match goal with
      | |- keeps_file (if ?b then _ else _) => destruct b
      end ].

(** The loader never touches the output file. *)
Lemma read_sales_data_keeps_file (pd : Pandas) (h : HashOrder) (env : Env)
  (path : string) : keeps_file (read_sales_data pd h env path).
Proof.
  unfold read_sales_data.
  destruct (read_csv env path); cbv zeta; keeps_file_tac.
Qed.



Lemma mem_In (c : string) (l : list string) : mem c l = true <-> In c l.
Proof.
  unfold mem. rewrite existsb_exists. split.
  - intros [x [Hin E]]. apply String.eqb_eq in E. subst. exact Hin.
  - intros H. exists c. split; [exact H | apply String.eqb_refl].
Qed.

Lemma difference_In (c : string) (a b : list string) :
  In c (difference a b) <-> In c a /\ ~ In c b.
Proof.
  unfold difference. rewrite filter_In, negb_true_iff.
  split; intros [H1 H2]; split; auto.
  - intros Hin. apply mem_In in Hin. congruence.
  - destruct (mem c b) eqn:E; [|reflexivity].
    apply mem_In in E. contradiction.
Qed.


Lemma count_true_mask_and_le (a b : list bool) :
  (count_true (mask_and a b) <= count_true a)%nat.
Proof.
  unfold count_true, mask_and. revert b.
  induction a as [|x a IH]; intros [|y b]; simpl; try lia.
  specialize (IH b). unfold id in *.
  destruct x, y; simpl; lia.
Qed.

(** ** The loader's and the orchestrator's claims *)

(** C2 (as amended).  Coercion goes dates first, then numerics, and the rows
    whose date is unparsable are removed in between.  On every table that has
    the required columns the loader prints the date warning, then the numeric
    warning; the date warning reports the number of rows whose Date is
    unparsable, and the numeric warning counts only rows whose Date parsed.
    A row whose Date is unparsable is therefore counted once in the date
    tally and not at all in the numeric tally, whatever its Quantity and
    Unit Price. *)
Theorem loader_warnings (pd : Pandas) (h : HashOrder) (env : Env)
  (path : string) (df : DataFrame) (w : World) :
  read_csv env path = CsvOk df ->
  issubset required_columns (columns df) = true ->
  rectangular df = true ->
  (exists out : DataFrame,
     read_sales_data pd h env path w
     = (mkWorld (stdout w ++ date_lines pd df ++ numeric_lines pd df) (xlsx w),
        Ok out) /\
     nrows out = count_true (valid_rows pd df)) /\
  (numeric_tally pd df <= 2 * count_true (good_dates pd df))%nat.
Proof.
  intros Hcsv Hsub Hrect. split.
  - destruct (read_sales_data_run pd h env path df w Hcsv Hsub Hrect)
      as (out & E & _ & _ & _ & _ & _ & N).
    exists out. split; assumption.
  - unfold numeric_tally.
    pose proof (count_true_mask_and_le (good_dates pd df)
                  (bad_numbers pd df "Quantity")).
    pose proof (count_true_mask_and_le (good_dates pd df)
                  (bad_numbers pd df "Unit Price")).
    lia.
Qed.

Lemma loader_warnings_witness :
  exists out : DataFrame,
    read_sales_data iso_pandas hash_order_id (env_of scenario) INPUT_FILE world0
    = (mkWorld (date_lines iso_pandas scenario ++
                numeric_lines iso_pandas scenario) Untouched, Ok out) /\
    nrows out = count_true (valid_rows iso_pandas scenario).
Proof.
  apply (proj1 (loader_warnings iso_pandas hash_order_id (env_of scenario)
                  INPUT_FILE scenario world0 eq_refl eq_refl eq_refl)).
Defined.

(** C2 (as stated) fails: the one row of [bad_date_bad_quantity] has an
    unparsable Date and an unparsable Quantity; the loader prints the date
    warning for one row and no numeric warning. *)
Lemma row_invalid_in_both_is_counted_once :
  invalid_in_both iso_pandas bad_date_bad_quantity = 1%nat /\
  date_tally iso_pandas bad_date_bad_quantity = 1%nat /\
  numeric_tally iso_pandas bad_date_bad_quantity = 0%nat /\
  stdout (fst (read_sales_data iso_pandas hash_order_id
                 (env_of bad_date_bad_quantity) INPUT_FILE world0))
  = [date_warning 1].
Proof. repeat split; vm_compute; reflexivity. Qed.

(** Counting two flags cell by cell, within the rows selected by [a], counts
    twice the rows that have both. *)
Lemma count_cells_or_rows (a b c : list bool) :
  List.length a = List.length b -> List.length b = List.length c ->
  (count_true (mask_and a b) + count_true (mask_and a c) +
   count_true (mask_and a (mask_and (map negb b) (map negb c)))
   = count_true a + count_true (mask_and a (mask_and b c)))%nat.
Proof.
  unfold count_true, mask_and. revert b c.
  induction a as [|x a IH]; intros [|y b] [|z c]; simpl; intros L1 L2;
    try discriminate; try reflexivity.
  specialize (IH b c ltac:(lia) ltac:(lia)). unfold id in *.
  destruct x, y, z; simpl; lia.
Qed.

(** The numeric tally against the rows: the rows with a valid date split
    into those that survive and those that are removed, and the tally
    exceeds the number of removed rows by the number of rows in which both
    Quantity and Unit Price are unparsable. *)
Lemma numeric_tally_overcounts (pd : Pandas) (df : DataFrame) :
  issubset required_columns (columns df) = true ->
  rectangular df = true ->
  (numeric_tally pd df + count_true (valid_rows pd df)
   = count_true (good_dates pd df) +
     count_true (mask_and (good_dates pd df)
                   (mask_and (bad_numbers pd df "Quantity")
                             (bad_numbers pd df "Unit Price"))))%nat.
Proof.
  intros Hsub Hrect.
  destruct (required_present df Hsub)
    as (d & p & q & u & s & Gd & Gp & Gq & Gu & Gs).
  pose proof (rectangular_length df _ _ Hrect Gd) as Ld.
  pose proof (rectangular_length df _ _ Hrect Gq) as Lq.
  pose proof (rectangular_length df _ _ Hrect Gu) as Lu.
  unfold numeric_tally, valid_rows.
  apply count_cells_or_rows;
    unfold good_dates, bad_dates, bad_numbers, to_datetime, to_numeric;
    rewrite ?(cells_getcol _ _ _ Gd), ?(cells_getcol _ _ _ Gq),
      ?(cells_getcol _ _ _ Gu), !length_map; congruence.
Qed.

(** C3, at the failing input.  The one row of [bad_quantity_bad_price] has a
    valid Date, an unparsable Quantity and an unparsable Unit Price.  It is
    removed from the table, and the warning reports 2 rows. *)
Lemma numeric_warning_counts_cells :
  nrows bad_quantity_bad_price = 1%nat /\
  date_tally iso_pandas bad_quantity_bad_price = 0%nat /\
  (exists out : DataFrame,
     read_sales_data iso_pandas hash_order_id (env_of bad_quantity_bad_price)
       INPUT_FILE world0
     = (mkWorld [numeric_warning 2] Untouched, Ok out) /\
     nrows out = 0%nat).
Proof.
  split; [reflexivity|]. split; [reflexivity|].
  eexists. split; vm_compute; reflexivity.
Qed.

(** C6.  When the header of the input lacks a required column, [main] ends
    with [sys.exit] (status 1) right after the banner: the message lists the
    missing required columns, each once and no other name, whatever the rows
    of the table are, and the output file is not written. *)
Theorem missing_columns_exit (pd : Pandas) (h : HashOrder) (env : Env)
  (df : DataFrame) :
  read_csv env INPUT_FILE = CsvOk df ->
  issubset required_columns (columns df) = false ->
  exists names : list string,
    (forall w, read_sales_data pd h env INPUT_FILE w
               = (w, Raise (SystemExit (missing_columns_error names)))) /\
    main pd h env world0
    = (mkWorld [banner] Untouched,
       Raise (SystemExit (missing_columns_error names))) /\
    exit_status (snd (main pd h env world0)) = 1 /\
    names = set_iter h (difference required_columns (columns df)) /\
    (forall c, In c names <-> In c required_columns /\ ~ In c (columns df)) /\
    NoDup names /\
    names <> [].
Proof.
  intros Hcsv Hsub.
  set (missing := difference required_columns (columns df)).
  assert (E : main pd h env world0
              = (mkWorld [banner] Untouched,
                 Raise (SystemExit (missing_columns_error (set_iter h missing))))).
  { unfold main, bind at 1, print. cbn [stdout xlsx world0 app].
    unfold bind at 1, read_sales_data. rewrite Hcsv, Hsub. reflexivity. }
  exists (set_iter h missing).
  split; [intros w; unfold read_sales_data; rewrite Hcsv, Hsub; reflexivity|].
  split; [exact E|].
  split; [rewrite E; reflexivity|]. split; [reflexivity|].
  pose proof (set_iter_perm h missing) as P.
  split; [|split].
  - intros c. unfold missing in P. rewrite <- difference_In. split; intros H.
    + apply (Permutation_in _ P H).
    + apply (Permutation_in _ (Permutation_sym P) H).
  - apply (Permutation_NoDup (Permutation_sym P)).
    unfold missing, difference. apply NoDup_filter.
    unfold required_columns.
    repeat constructor; simpl; intuition discriminate.
  - intros Hnil. rewrite Hnil in P. apply Permutation_nil in P.
    unfold issubset in Hsub.
    assert (Hall : forallb (fun c => mem c (columns df)) required_columns = true).
    { apply forallb_forall. intros c Hc.
      destruct (mem c (columns df)) eqn:M; [reflexivity|].
      assert (Hin : In c missing).
      { apply difference_In. split; [exact Hc|].
        intros Hc'. apply mem_In in Hc'. congruence. }
      rewrite P in Hin. contradiction. }
    congruence.
Qed.

Lemma missing_columns_exit_witness :
  exists names : list string,
    main iso_pandas hash_order_id (env_of two_columns_missing) world0
    = (mkWorld [banner] Untouched,
       Raise (SystemExit (missing_columns_error names))) /\
    names = ["Quantity"; "Unit Price"].
Proof.
  destruct (missing_columns_exit iso_pandas hash_order_id
              (env_of two_columns_missing) two_columns_missing
              eq_refl eq_refl)
    as (names & _ & E & _ & N & _).
  exists names. split; [exact E | exact N].
Defined.

(** C7.  When the table that the loader returns is empty, [main] ends with
    [sys.exit] (status 1) and the message "No valid data to process." in the
    state in which the loader left the console: nothing is printed after the
    loader's warnings, and the output file is not written. *)
Theorem empty_table_exit (pd : Pandas) (h : HashOrder) (env : Env)
  (w : World) (sales_df : DataFrame) :
  read_sales_data pd h env INPUT_FILE (mkWorld [banner] Untouched)
    = (w, Ok sales_df) ->
  empty sales_df = true ->
  main pd h env world0 = (w, Raise (SystemExit no_valid_data)) /\
  exit_status (snd (main pd h env world0)) = 1 /\
  xlsx w = Untouched.
Proof.
  intros Hread Hempty.
  assert (E : main pd h env world0 = (w, Raise (SystemExit no_valid_data))).
  { unfold main, bind at 1, print. cbn [stdout xlsx world0 app].
    unfold bind at 1. rewrite Hread, Hempty. reflexivity. }
  split; [exact E|]. split; [rewrite E; reflexivity|].
  pose proof (read_sales_data_keeps_file pd h env INPUT_FILE
                (mkWorld [banner] Untouched)) as K.
  rewrite Hread in K. exact K.
Qed.

Lemma empty_table_exit_witness :
  main iso_pandas hash_order_id (env_of bad_date_bad_quantity) world0
  = (mkWorld [banner; date_warning 1] Untouched,
     Raise (SystemExit no_valid_data)).
Proof.
  apply (empty_table_exit iso_pandas hash_order_id
           (env_of bad_date_bad_quantity)
           (mkWorld [banner; date_warning 1] Untouched)
           [("Date", []); ("Product", []); ("Quantity", []);
            ("Unit Price", []); ("Salesperson", []); ("Total Sale", [])]).
  - vm_compute. reflexivity.
  - reflexivity.
Defined.




(** C9.  Run as a script, the module stops at its guard: the name [_name_]
    is bound neither in the module nor in the builtins, the lookup raises
    [NameError], and [main] is not called.  Whatever the input, nothing is
    printed, no file is written, and the process ends with status 1. *)
Theorem entry_guard_raises (pd : Pandas) (h : HashOrder) (env : Env) :
  script pd h env world0 = (world0, Raise (NameError "_name_")) /\
  stdout (fst (script pd h env world0)) = [] /\
  xlsx (fst (script pd h env world0)) = Untouched /\
  exit_status (snd (script pd h env world0)) = 1.
Proof.
  assert (L : lookup_name "_name_" = Raise (NameError "_name_"))
    by (vm_compute; reflexivity).
  assert (E : script pd h env world0 = (world0, Raise (NameError "_name_"))).
  { unfold script, bind, lift. rewrite L. reflexivity. }
  rewrite E. repeat split.
Qed.

(** * Further properties *)

(** ** Rules for specifications *)












(** ** Headers *)







(** ** The loader, whatever the input *)

Lemma issubset_mem (a b : list string) (c : string) :
  issubset a b = true -> In c a -> mem c b = true.
Proof.
  unfold issubset. rewrite forallb_forall. auto.
Qed.



(** ** [main], whatever the input *)






(** ** The rows that the loader keeps *)

Lemma series_eqb_eq (a b : Series) : series_eqb a b = true -> a = b.
Proof.
  revert b. induction a as [|x a IH]; intros [|y b]; simpl;
    try discriminate; [reflexivity|].
  intros H. apply andb_true_iff in H. destruct H as [Hx Ha].
  apply value_eqb_eq in Hx. rewrite (IH b Ha), Hx. reflexivity.
Qed.

Lemma cleaned_total_sale (df : DataFrame) (q u t : Series) :
  cleaned df = true ->
  getcol df "Quantity" = Some q -> getcol df "Unit Price" = Some u ->
  getcol df "Total Sale" = Some t ->
  t = series_mul q u.
Proof.
  unfold cleaned. intros H Gq Gu Gt. rewrite Gq, Gu, Gt in H.
  apply andb_true_iff in H. destruct H as [_ H].
  destruct (getcol df "Date"); [|discriminate].
  destruct (getcol df "Product"); [|discriminate].
  destruct (getcol df "Salesperson"); [|discriminate].
  rewrite !andb_true_iff in H. destruct H as [_ H].
  apply series_eqb_eq, H.
Qed.

(** The table that the loader returns for a table that has the required
    columns: it is cleaned, it holds exactly the rows whose Date, Quantity
    and Unit Price all parse, in the order of the input; Date, Quantity and
    Unit Price hold the parsed values, Total Sale their product, and the
    cells of every other column are carried over as they were. *)
Theorem loader_keeps_valid_rows (pd : Pandas) (h : HashOrder) (env : Env)
  (path : string) (df : DataFrame) (w : World) :
  read_csv env path = CsvOk df ->
  issubset required_columns (columns df) = true ->
  rectangular df = true ->
  exists (out : DataFrame) (w' : World),
    read_sales_data pd h env path w = (w', Ok out) /\
    cleaned out = true /\
    nrows out = count_true (valid_rows pd df) /\
    getcol out "Date"
      = Some (keep (valid_rows pd df) (to_datetime pd (cells df "Date"))) /\
    getcol out "Quantity"
      = Some (keep (valid_rows pd df) (to_numeric pd (cells df "Quantity"))) /\
    getcol out "Unit Price"
      = Some (keep (valid_rows pd df) (to_numeric pd (cells df "Unit Price"))) /\
    getcol out "Total Sale"
      = Some (series_mul
                (keep (valid_rows pd df) (to_numeric pd (cells df "Quantity")))
                (keep (valid_rows pd df) (to_numeric pd (cells df "Unit Price")))) /\
    (forall c s, getcol df c = Some s ->
                 c <> "Date" -> c <> "Quantity" -> c <> "Unit Price" ->
                 c <> "Total Sale" ->
                 getcol out c = Some (keep (valid_rows pd df) s)).
Proof.
  intros Hcsv Hsub Hrect.
  destruct (read_sales_data_run pd h env path df w Hcsv Hsub Hrect)
    as (out & E & C & Gd & Gq & Gu & Go & N).
  exists out. eexists. split; [exact E|]. split; [exact C|].
  split; [exact N|]. split; [exact Gd|]. split; [exact Gq|].
  split; [exact Gu|]. split.
  - destruct (cleaned_inv out C) as (_ & _ & _ & _ & _ & t & _ & _ & _ & _ & _ & Gt & _).
    rewrite Gt. f_equal. apply (cleaned_total_sale out _ _ _ C Gq Gu Gt).
  - intros c s G H1 H2 H3 H4. rewrite (Go c H1 H2 H3 H4), G. reflexivity.
Qed.

Lemma loader_keeps_valid_rows_witness :
  exists (out : DataFrame) (w' : World),
    read_sales_data iso_pandas hash_order_id (env_of scenario) INPUT_FILE world0
      = (w', Ok out) /\
    nrows out = 2%nat /\
    getcol out "Product" = Some [Str "Widget"; Str "Widget"].
Proof.
  destruct (loader_keeps_valid_rows iso_pandas hash_order_id (env_of scenario)
              INPUT_FILE scenario world0 eq_refl eq_refl eq_refl)
    as (out & w' & E & _ & N & _ & _ & _ & _ & Go).
  exists out, w'. split; [exact E|]. split; [exact N|].
  apply (Go "Product" [Str "Widget"; Str "Widget"; Str "Gadget"]);
    [reflexivity | discriminate ..].
Defined.

Lemma count_true_le_length (m : list bool) :
  (count_true m <= List.length m)%nat.
Proof.
  unfold count_true. induction m as [|b m IH]; simpl; [lia|].
  unfold id at 1. destruct b; simpl; lia.
Qed.

Lemma count_true_negb (m : list bool) :
  (count_true m + count_true (map negb m) = List.length m)%nat.
Proof.
  unfold count_true. induction m as [|b m IH]; simpl; [reflexivity|].
  unfold id in *. destruct b; simpl; lia.
Qed.

Lemma count_true_mask_and3_l (a b c : list bool) :
  (count_true (mask_and a (mask_and b c)) <= count_true (mask_and a b))%nat.
Proof.
  unfold count_true, mask_and. revert b c.
  induction a as [|x a IH]; intros [|y b] [|z c]; simpl; try lia.
  specialize (IH b c). unfold id in *.
  destruct x, y, z; simpl; lia.
Qed.

Lemma count_true_mask_and3_r (a b c : list bool) :
  (count_true (mask_and a (mask_and b c)) <= count_true (mask_and a c))%nat.
Proof.
  unfold count_true, mask_and. revert b c.
  induction a as [|x a IH]; intros [|y b] [|z c]; simpl; try lia.
  specialize (IH b c). unfold id in *.
  destruct x, y, z; simpl; lia.
Qed.

(** The loader removes no row silently: on a table that has the required
    columns it prints no warning exactly when the table it returns has as
    many rows as the input. *)
Theorem loader_warns_iff_rows_removed (pd : Pandas) (h : HashOrder) (env : Env)
  (path : string) (df : DataFrame) (w : World) :
  read_csv env path = CsvOk df ->
  issubset required_columns (columns df) = true ->
  rectangular df = true ->
  exists (out : DataFrame) (lines : list string),
    read_sales_data pd h env path w
      = (mkWorld (stdout w ++ lines) (xlsx w), Ok out) /\
    (lines = [] <-> nrows out = nrows df) /\
    (nrows out <= nrows df)%nat.
Proof.
  intros Hcsv Hsub Hrect.
  destruct (read_sales_data_run pd h env path df w Hcsv Hsub Hrect)
    as (out & E & _ & _ & _ & _ & _ & N).
  exists out, (date_lines pd df ++ numeric_lines pd df).
  split; [exact E|]. rewrite N.
  destruct (required_present df Hsub)
    as (d & p & q & u & s & Gd & Gp & Gq & Gu & Gs).
  pose proof (rectangular_length df _ _ Hrect Gd) as Ld.
  assert (Lg : List.length (bad_dates pd df) = nrows df).
  { unfold bad_dates, to_datetime. rewrite (cells_getcol _ _ _ Gd), !length_map.
    exact Ld. }
  pose proof (count_true_negb (bad_dates pd df)) as Hn. rewrite Lg in Hn.
  fold (good_dates pd df) in Hn. fold (date_tally pd df) in Hn.
  pose proof (numeric_tally_overcounts pd df Hsub Hrect) as Ho.
  pose proof (count_true_mask_and_le (good_dates pd df)
                (mask_and (map negb (bad_numbers pd df "Quantity"))
                          (map negb (bad_numbers pd df "Unit Price")))) as Hv.
  fold (valid_rows pd df) in Hv.
  set (both := mask_and (good_dates pd df)
                 (mask_and (bad_numbers pd df "Quantity")
                           (bad_numbers pd df "Unit Price"))) in *.
  pose proof (count_true_mask_and3_l (good_dates pd df)
                (bad_numbers pd df "Quantity")
                (bad_numbers pd df "Unit Price")) as Hbq.
  pose proof (count_true_mask_and3_r (good_dates pd df)
                (bad_numbers pd df "Quantity")
                (bad_numbers pd df "Unit Price")) as Hbu.
  fold both in Hbq, Hbu.
  assert (Ht : numeric_tally pd df
               = (count_true (mask_and (good_dates pd df)
                                (bad_numbers pd df "Quantity")) +
                  count_true (mask_and (good_dates pd df)
                                (bad_numbers pd df "Unit Price")))%nat)
    by reflexivity.
  pose proof (count_true_le_length (good_dates pd df)) as Hg.
  unfold good_dates in Hg at 2. rewrite length_map, Lg in Hg.
  split; [|lia].
  unfold date_lines, numeric_lines.
  destruct (date_tally pd df) as [|nd] eqn:Ed;
    destruct (numeric_tally pd df) as [|nq] eqn:Eq; simpl;
    split; intros H; try discriminate; try reflexivity; lia.
Qed.

Lemma loader_warns_iff_rows_removed_witness :
  exists (out : DataFrame) (lines : list string),
    read_sales_data iso_pandas hash_order_id (env_of scenario) INPUT_FILE world0
      = (mkWorld lines Untouched, Ok out) /\
    (lines = [] <-> nrows out = 3%nat).
Proof.
  destruct (loader_warns_iff_rows_removed iso_pandas hash_order_id
              (env_of scenario) INPUT_FILE scenario world0
              eq_refl eq_refl eq_refl)
    as (out & lines & E & I & _).
  exists out, lines. split; [exact E | exact I].
Defined.

(** ** Summaries, row by row *)

Section SortingRows.
Context {A B : Type}.
Variable f : A -> B.
Variable lebA : A -> A -> bool.
Variable lebB : B -> B -> bool.
Hypothesis leb_f : forall x y, lebB (f x) (f y) = lebA x y.

Lemma insert_sorted_map (x : A) (l : list A) :
  insert_sorted lebB (f x) (map f l) = map f (insert_sorted lebA x l).
Proof.
  induction l as [|y l IH]; simpl; [reflexivity|].
  rewrite leb_f. destruct (lebA x y); simpl; [reflexivity|].
  rewrite IH. reflexivity.
Qed.

Lemma stable_sort_map (l : list A) :
  stable_sort lebB (map f l) = map f (stable_sort lebA l).
Proof.
  induction l as [|x l IH]; simpl; [reflexivity|].
  rewrite IH. apply insert_sorted_map.
Qed.
End SortingRows.

Lemma combine_rows_fst {X Y Z : Type} (k : list X) (a : list Y) (b : list Z) :
  List.length a = List.length b ->
  map (fun r => (fst r, fst (snd r))) (combine k (combine a b)) = combine k a.
Proof.
  revert a b. induction k as [|x k IH]; intros [|y a] [|z b]; simpl; intros L;
    try reflexivity; try discriminate.
  rewrite IH by lia. reflexivity.
Qed.

Lemma combine_rows_snd {X Y Z : Type} (k : list X) (a : list Y) (b : list Z) :
  List.length a = List.length b ->
  map (fun r => (fst r, snd (snd r))) (combine k (combine a b)) = combine k b.
Proof.
  revert a b. induction k as [|x k IH]; intros [|y a] [|z b]; simpl; intros L;
    try reflexivity; try discriminate.
  rewrite IH by lia. reflexivity.
Qed.

Lemma combine_map_same {X Y Z : Type} (f : X -> Y) (g : X -> Z) (l : list X) :
  combine (map f l) (map g l) = map (fun x => (f x, g x)) l.
Proof. induction l as [|x l IH]; simpl; [reflexivity|]. rewrite IH. reflexivity. Qed.

Lemma map_snd_combine_gen {X Y : Type} (k : list X) (s : list Y) :
  List.length k = List.length s -> map snd (combine k s) = s.
Proof.
  revert s. induction k as [|x k IH]; intros [|y s]; simpl; intros L;
    try reflexivity; try discriminate.
  rewrite IH by lia. reflexivity.
Qed.

(** [sort_values] moves whole rows: the cells that stood side by side in two
    columns still do after the sort. *)
Lemma sort_values_keeps_rows (asc : bool) (keys a b : Series) :
  List.length keys = List.length a -> List.length a = List.length b ->
  Permutation (combine (sort_column asc keys a) (sort_column asc keys b))
              (combine a b).
Proof.
  intros L1 L2. unfold sort_column.
  set (lebR := fun x y : value * (value * value) =>
                 sort_key_leb asc (fst x) (fst y)).
  set (R := combine keys (combine a b)).
  rewrite <- (combine_rows_fst keys a b L2), <- (combine_rows_snd keys a b L2).
  fold R.
  rewrite (stable_sort_map (fun r : value * (value * value) => (fst r, fst (snd r)))
             lebR _ (fun _ _ => eq_refl) R).
  rewrite (stable_sort_map (fun r : value * (value * value) => (fst r, snd (snd r)))
             lebR _ (fun _ _ => eq_refl) R).
  rewrite !map_map. simpl. rewrite combine_map_same.
  assert (E : map (fun x : value * (value * value) => (fst (snd x), snd (snd x)))
                  (stable_sort lebR R) = map snd (stable_sort lebR R)).
  { apply map_ext. intros [x [y z]]. reflexivity. }
  rewrite E.
  replace (combine a b) with (map snd R)
    by (apply map_snd_combine_gen; rewrite length_combine; lia).
  apply Permutation_map, stable_sort_perm.
Qed.

Lemma notna_neq (k : value) : notna k = true <-> k <> NaN.
Proof.
  destruct k; simpl; split; intros H; try reflexivity; try discriminate;
    exfalso; apply H; reflexivity.
Qed.

Lemma group_sum_where (k : value) (ks vs : Series) :
  k <> NaN ->
  group_sum k (group_pairs ks vs)
  = sum_values (keep (map (fun x => value_eqb x k) ks) vs).
Proof.
  intros Hk. unfold group_sum, group_pairs. revert vs.
  induction ks as [|x ks IH]; intros [|v vs]; simpl; try reflexivity.
  destruct (notna x) eqn:Nx; simpl.
  - destruct (value_eqb x k); simpl; rewrite IH; reflexivity.
  - destruct (value_eqb x k) eqn:E; [|apply IH].
    apply value_eqb_eq in E. subst x. apply notna_neq in Hk. congruence.
Qed.

Lemma In_combine_l {X Y : Type} (x : X) (a : list X) (b : list Y) :
  List.length a = List.length b -> In x a -> exists y, In (x, y) (combine a b).
Proof.
  revert b. induction a as [|x' a IH]; intros [|y b]; simpl; intros L H;
    try contradiction; try discriminate.
  destruct H as [->|H].
  - exists y. left. reflexivity.
  - destruct (IH b ltac:(lia) H) as [y' Hy]. exists y'. right. exact Hy.
Qed.

Lemma In_group_keys (k : value) (ks vs : Series) :
  List.length ks = List.length vs ->
  In k (group_keys (group_pairs ks vs)) <-> In k ks /\ k <> NaN.
Proof.
  intros L. unfold group_keys. split.
  - intros H. apply (Permutation_in _ (stable_sort_perm _ _)) in H.
    apply (proj1 (dedup_In _ _)) in H. apply in_map_iff in H.
    destruct H as [[k' v] [E H]]. simpl in E. subst k'.
    apply filter_In in H. destruct H as [H N]. split.
    + apply in_combine_l in H. exact H.
    + apply notna_neq, N.
  - intros [H N].
    apply (Permutation_in _ (Permutation_sym (stable_sort_perm _ _))).
    apply dedup_In. destruct (In_combine_l k ks vs L H) as [v Hv].
    apply in_map_iff. exists (k, v). split; [reflexivity|].
    apply filter_In. split; [exact Hv | apply notna_neq, N].
Qed.

Lemma group_keys_NoDup (pairs : list (value * value)) :
  NoDup (group_keys pairs).
Proof.
  apply (Permutation_NoDup (Permutation_sym (stable_sort_perm _ _))).
  apply dedup_NoDup.
Qed.

(** What grouping by a key and sorting gives, row by row: one row for each
    key that occurs in the table, and beside it the sum of Total Sale over
    the rows with that key. *)
Lemma summary_groups (df : DataFrame) (key by_ : string) (asc : bool)
  (ks vs : Series) :
  key <> "Total Sale" -> by_ = key \/ by_ = "Total Sale" ->
  getcol df key = Some ks -> getcol df "Total Sale" = Some vs ->
  List.length ks = List.length vs ->
  exists K T : Series,
    (g <- groupby_sum df key "Total Sale" ;; sort_values g by_ asc)%result
    = Ok [(key, K); ("Total Sale", T)] /\
    List.length K = List.length T /\
    NoDup K /\
    (forall k t, In (k, t) (combine K T) <->
                 In k ks /\ k <> NaN /\
                 t = Num (sum_values
                            (keep (map (fun x => value_eqb x k) ks) vs))).
Proof.
  intros Hne Hby Hk Hv L.
  set (P := group_pairs ks vs). set (G := group_keys P).
  set (S := group_sums P G).
  assert (LS : List.length S = List.length G) by apply group_sums_length.
  assert (R : forall X, List.length X = List.length G ->
                exists K T,
                  K = sort_column asc X G /\ T = sort_column asc X S /\
                  List.length K = List.length T /\ NoDup K /\
                  (forall k t, In (k, t) (combine K T) <->
                     In k ks /\ k <> NaN /\
                     t = Num (sum_values
                                (keep (map (fun x => value_eqb x k) ks) vs)))).
  { intros X LX. do 2 eexists. split; [reflexivity|]. split; [reflexivity|].
    pose proof (sort_column_perm asc X G LX) as PG.
    pose proof (sort_column_perm asc X S ltac:(lia)) as PS.
    split; [|split].
    - rewrite (Permutation_length PG), (Permutation_length PS). lia.
    - apply (Permutation_NoDup (Permutation_sym PG)), group_keys_NoDup.
    - intros k t.
      pose proof (sort_values_keeps_rows asc X G S LX (eq_sym LS)) as PR.
      assert (EGS : combine G S = map (fun k => (k, Num (group_sum k P))) G).
      { unfold S, group_sums. rewrite <- (map_id G) at 1.
        rewrite combine_map_same. reflexivity. }
      rewrite EGS in PR. split.
      + intros H. apply (Permutation_in _ PR) in H. apply in_map_iff in H.
        destruct H as [k' [E H]]. inversion E; subst k' t.
        apply (In_group_keys k ks vs L) in H. destruct H as [H N].
        split; [exact H|]. split; [exact N|].
        unfold P. rewrite group_sum_where by assumption. reflexivity.
      + intros (H & N & ->).
        apply (Permutation_in _ (Permutation_sym PR)).
        apply in_map_iff. exists k. split.
        * unfold P. rewrite group_sum_where by assumption. reflexivity.
        * apply (In_group_keys k ks vs L). auto. }
  rewrite (groupby_sum_eq df key "Total Sale" ks vs Hk Hv). simpl.
  fold P. fold G. fold S.
  destruct Hby as [->| ->].
  - destruct (R G eq_refl) as (K & T & -> & -> & H).
    do 2 eexists. split; [apply sort_values_by_key | exact H].
  - destruct (R S LS) as (K & T & -> & -> & H).
    do 2 eexists. split; [apply sort_values_by_val, Hne | exact H].
Qed.

Lemma In_combine_r {X Y : Type} (y : Y) (a : list X) (b : list Y) :
  List.length a = List.length b -> In y b -> exists x, In (x, y) (combine a b).
Proof.
  revert b. induction a as [|x a IH]; intros [|y' b]; simpl; intros L H;
    try contradiction; try discriminate.
  destruct H as [->|H].
  - exists x. left. reflexivity.
  - destruct (IH b ltac:(lia) H) as [x' Hx]. exists x'. right. exact Hx.
Qed.

Lemma In_combine_map {X Y X' Y' : Type} (f : X -> X') (g : Y -> Y')
  (x : X) (y : Y) (a : list X) (b : list Y) :
  (forall u v, f u = f v -> u = v) -> (forall u v, g u = g v -> u = v) ->
  In (f x, g y) (combine (map f a) (map g b)) <-> In (x, y) (combine a b).
Proof.
  intros Hf Hg. revert b.
  induction a as [|x' a IH]; intros [|y' b]; simpl; try tauto.
  rewrite IH. split; intros [E|H]; auto; left.
  - inversion E. f_equal; auto.
  - inversion E. reflexivity.
Qed.

Lemma summary_call (df df' : DataFrame) (key by_ : string) (asc : bool)
  (s : DataFrame) :
  (g <- groupby_sum df key "Total Sale" ;; sort_values g by_ asc)%result = Ok s ->
  (g <- groupby_sum df key "Total Sale" ;;
   s <- sort_values g by_ asc ;;
   Ok (mkCall s df'))%result = Ok (mkCall s df').
Proof.
  destruct (groupby_sum df key "Total Sale") as [g|e]; simpl; [|discriminate].
  intros ->. reflexivity.
Qed.

Lemma by_total_groups (df : DataFrame) (key : string) :
  key <> "Total Sale" ->
  rectangular df = true ->
  mem key (columns df) = true -> mem "Total Sale" (columns df) = true ->
  exists K T : Series,
    (g <- groupby_sum df key "Total Sale" ;;
     s <- sort_values g "Total Sale" false ;;
     Ok (mkCall s df))%result
    = Ok (mkCall [(key, K); ("Total Sale", T)] df) /\
    NoDup K /\
    (forall k t, In (k, t) (combine K T) <->
                 In k (cells df key) /\ k <> NaN /\
                 t = Num (total_of df (rows_where df key k))).
Proof.
  intros Hne Hr Mk Mt.
  destruct (getcol_mem _ _ Mk) as [ks Gk]. destruct (getcol_mem _ _ Mt) as [vs Gv].
  assert (L : List.length ks = List.length vs).
  { rewrite (rectangular_length df _ _ Hr Gk), (rectangular_length df _ _ Hr Gv).
    reflexivity. }
  destruct (summary_groups df key "Total Sale" false ks vs Hne
              (or_intror eq_refl) Gk Gv L) as (K & T & E & _ & ND & I).
  exists K, T. split; [apply summary_call, E|]. split; [exact ND|].
  unfold total_of, rows_where.
  rewrite (cells_getcol _ _ _ Gk), (cells_getcol _ _ _ Gv). exact I.
Qed.

Lemma cleaned_columns (df : DataFrame) :
  cleaned df = true ->
  issubset (required_columns ++ ["Total Sale"]) (columns df) = true.
Proof.
  intros Hc.
  destruct (cleaned_inv df Hc)
    as (d & p & q & u & s & t & Gd & Gp & Gq & Gu & Gs & Gt & _).
  assert (M : forall c x, getcol df c = Some x -> mem c (columns df) = true).
  { intros c x G. apply mem_In. unfold columns.
    clear - G. induction df as [|[c' s'] df IH]; simpl in *; [discriminate|].
    destruct (String.eqb c' c) eqn:E; [left; apply String.eqb_eq, E | right; auto]. }
  unfold issubset. simpl.
  rewrite (M _ _ Gd), (M _ _ Gp), (M _ _ Gq), (M _ _ Gu), (M _ _ Gs), (M _ _ Gt).
  reflexivity.
Qed.

Lemma cleaned_rectangular (df : DataFrame) :
  cleaned df = true -> rectangular df = true.
Proof. unfold cleaned. intros H. apply andb_true_iff in H. apply H. Qed.

(** The product summary, row by row.  For every cleaned table it has one row
    for each product that occurs in the table, no product twice, and beside
    each product the sum of Total Sale over the rows of that product. *)
Theorem product_summary_groups (df : DataFrame) :
  cleaned df = true ->
  exists p : call,
    generate_product_sales df = Ok p /\
    NoDup (cells (returned p) "Product") /\
    (forall k t, In (k, t) (summary_rows (returned p) "Product") <->
                 In k (cells df "Product") /\ k <> NaN /\
                 t = Num (total_of df (rows_where df "Product" k))).
Proof.
  intros Hc. pose proof (cleaned_columns df Hc) as Hs.
  destruct (by_total_groups df "Product" ltac:(discriminate)
              (cleaned_rectangular df Hc)
              (issubset_mem _ _ "Product" Hs ltac:(simpl; tauto))
              (issubset_mem _ _ "Total Sale" Hs ltac:(simpl; tauto)))
    as (K & T & E & ND & I).
  eexists. split; [exact E|]. split; [exact ND | exact I].
Qed.

Lemma product_summary_groups_witness :
  exists p : call,
    generate_product_sales scenario_cleaned = Ok p /\
    In (Str "Widget", Num 30) (summary_rows (returned p) "Product").
Proof.
  destruct (product_summary_groups scenario_cleaned eq_refl)
    as (p & E & _ & I).
  exists p. split; [exact E|]. apply I.
  split; [simpl; tauto|]. split; [discriminate | reflexivity].
Defined.

(** The salesperson summary, row by row: one row for each salesperson that
    occurs in the table, and beside each the sum of Total Sale over the rows
    of that salesperson. *)
Theorem salesperson_summary_groups (df : DataFrame) :
  cleaned df = true ->
  exists s : call,
    generate_salesperson_sales df = Ok s /\
    NoDup (cells (returned s) "Salesperson") /\
    (forall k t, In (k, t) (summary_rows (returned s) "Salesperson") <->
                 In k (cells df "Salesperson") /\ k <> NaN /\
                 t = Num (total_of df (rows_where df "Salesperson" k))).
Proof.
  intros Hc. pose proof (cleaned_columns df Hc) as Hs.
  destruct (by_total_groups df "Salesperson" ltac:(discriminate)
              (cleaned_rectangular df Hc)
              (issubset_mem _ _ "Salesperson" Hs ltac:(simpl; tauto))
              (issubset_mem _ _ "Total Sale" Hs ltac:(simpl; tauto)))
    as (K & T & E & ND & I).
  eexists. split; [exact E|]. split; [exact ND | exact I].
Qed.

Lemma salesperson_summary_groups_witness :
  exists s : call,
    generate_salesperson_sales scenario_cleaned = Ok s /\
    In (Str "Bob", Num 10) (summary_rows (returned s) "Salesperson").
Proof.
  destruct (salesperson_summary_groups scenario_cleaned eq_refl)
    as (s & E & _ & I).
  exists s. split; [exact E|]. apply I.
  split; [simpl; tauto|]. split; [discriminate | reflexivity].
Defined.

Lemma to_period_in_month (p : Period) (d : value) :
  value_eqb match d with
            | Time t => Per (mkPeriod (ts_year t) (ts_month t))
            | _ => NaN
            end (Per p) = in_month p d.
Proof. destruct d; reflexivity. Qed.

Lemma year_in_year (y : Z) (d : value) :
  value_eqb match d with Time t => Num (ts_year t) | _ => NaN end (Num y)
  = in_year y d.
Proof. destruct d; reflexivity. Qed.

Lemma In_periods (p : Period) (ds : Series) :
  In (Per p) (dt_to_period_M ds) <-> exists d, In d ds /\ in_month p d = true.
Proof.
  unfold dt_to_period_M. rewrite in_map_iff. split.
  - intros [d [E H]]. exists d. split; [exact H|].
    rewrite <- to_period_in_month, E. apply value_eqb_refl.
  - intros [d [H E]]. exists d. split; [|exact H].
    rewrite <- to_period_in_month in E. apply value_eqb_eq, E.
Qed.

Lemma In_years (y : Z) (ds : Series) :
  In (Num y) (dt_year ds) <-> exists d, In d ds /\ in_year y d = true.
Proof.
  unfold dt_year. rewrite in_map_iff. split.
  - intros [d [E H]]. exists d. split; [exact H|].
    rewrite <- year_in_year, E. apply value_eqb_refl.
  - intros [d [H E]]. exists d. split; [|exact H].
    rewrite <- year_in_year in E. apply value_eqb_eq, E.
Qed.

Lemma rows_in_month (p : Period) (ds : Series) :
  map (fun x => value_eqb x (Per p)) (dt_to_period_M ds) = map (in_month p) ds.
Proof.
  unfold dt_to_period_M. rewrite map_map. apply map_ext.
  intros d. apply to_period_in_month.
Qed.

Lemma rows_in_year (y : Z) (ds : Series) :
  map (fun x => value_eqb x (Num y)) (dt_year ds) = map (in_year y) ds.
Proof.
  unfold dt_year. rewrite map_map. apply map_ext.
  intros d. apply year_in_year.
Qed.

(** The cells of a summary by a derived key, and its totals. *)
Lemma derived_summary (df : DataFrame) (key : string) (ks vs : Series) :
  key <> "Total Sale" ->
  getcol df "Total Sale" = Some vs ->
  List.length ks = List.length vs ->
  exists (K : Series) (ts : list Z),
    (g <- groupby_sum (setcol df key ks) key "Total Sale" ;;
     sort_values g key true)%result
    = Ok [(key, K); ("Total Sale", map Num ts)] /\
    List.length K = List.length ts /\
    NoDup K /\
    (forall k, In k K -> In k ks /\ k <> NaN) /\
    (forall k t, In (k, Num t) (combine K (map Num ts)) <->
                 In k ks /\ k <> NaN /\
                 t = sum_values (keep (map (fun x => value_eqb x k) ks) vs)).
Proof.
  intros Hne Gv L.
  assert (Gk' : getcol (setcol df key ks) key = Some ks)
    by apply getcol_setcol_same.
  assert (Gv' : getcol (setcol df key ks) "Total Sale" = Some vs).
  { rewrite getcol_setcol_other; [exact Gv|]. congruence. }
  destruct (summary_groups _ key key true ks vs Hne (or_introl eq_refl)
              Gk' Gv' L) as (K & T & E & LK & ND & I).
  assert (HT : Forall (fun v => is_num v = true) T).
  { apply Forall_forall. intros t Ht.
    destruct (In_combine_r t K T LK Ht) as [k Hk].
    apply I in Hk. destruct Hk as (_ & _ & ->). reflexivity. }
  destruct (as_nums _ HT) as [ts ->].
  exists K, ts. split; [exact E|].
  split; [rewrite length_map in LK; exact LK|]. split; [exact ND|]. split.
  - intros k Hk. destruct (In_combine_l k K _ LK Hk) as [t Ht].
    apply I in Ht. tauto.
  - intros k t. rewrite I. split; intros (H1 & H2 & H3); repeat split; auto;
      congruence.
Qed.

(** The monthly summary of a table given by its Date and Total Sale
    columns. *)
Lemma monthly_groups (df : DataFrame) (d t : Series) :
  getcol df "Date" = Some d -> getcol df "Total Sale" = Some t ->
  List.length d = List.length t ->
  exists (ps : list Period) (ts : list Z),
    generate_monthly_sales df
    = Ok (mkCall [("YearMonth", map (fun p => Str (Period_str p)) ps);
                  ("Total Sale", map Num ts)]
                 (setcol df "YearMonth" (dt_to_period_M d))) /\
    List.length ps = List.length ts /\
    NoDup ps /\
    (forall p v, In (p, v) (combine ps ts) <->
                 (exists x, In x d /\ in_month p x = true) /\
                 v = sum_values (keep (map (in_month p) d) t)).
Proof.
  intros Gd Gt Ld.
  assert (L : List.length (dt_to_period_M d) = List.length t)
    by (unfold dt_to_period_M; rewrite length_map; exact Ld).
  destruct (derived_summary df "YearMonth" (dt_to_period_M d) t
              ltac:(discriminate) Gt L) as (K & ts & E & LK & ND & HK & I).
  assert (HP : Forall (fun v => exists p, v = Per p) K).
  { apply Forall_forall. intros k Hk. destruct (HK k Hk) as [H1 H2].
    unfold dt_to_period_M in H1. apply in_map_iff in H1.
    destruct H1 as [v [<- _]]. destruct v; try congruence. eauto. }
  destruct (as_periods _ HP) as [ps ->].
  exists ps, ts. split; [|split; [|split]].
  - unfold generate_monthly_sales, getitem. rewrite Gd. simpl.
    destruct (groupby_sum _ "YearMonth" "Total Sale") as [g|e];
      simpl in E |- *; [|discriminate].
    rewrite E. simpl. unfold astype_str. rewrite map_map. reflexivity.
  - rewrite length_map in LK. exact LK.
  - apply (NoDup_map_inv Per), ND.
  - intros p' t'.
    rewrite <- (In_combine_map Per Num p' t' ps ts)
      by (intros ? ? H; inversion H; reflexivity).
    rewrite I, In_periods, rows_in_month.
    split; [intros (H1 & _ & H3) | intros (H1 & H3)]; repeat split; auto.
    discriminate.
Qed.

(** The monthly summary, row by row.  For every cleaned table it has one row
    for each month in which the table has a sale, no month twice, and beside
    each month the sum of Total Sale over the rows dated in that month. *)
Theorem monthly_summary_groups (df : DataFrame) :
  cleaned df = true ->
  exists (m : call) (ps : list Period) (ts : list Z),
    generate_monthly_sales df = Ok m /\
    cells (returned m) "YearMonth" = map (fun p => Str (Period_str p)) ps /\
    cells (returned m) "Total Sale" = map Num ts /\
    List.length ps = List.length ts /\
    NoDup ps /\
    (forall p t, In (p, t) (combine ps ts) <->
                 (exists d, In d (cells df "Date") /\ in_month p d = true) /\
                 t = total_of df (map (in_month p) (cells df "Date"))).
Proof.
  intros Hc.
  destruct (cleaned_inv df Hc)
    as (d & p & q & u & s & t & Gd & Gp & Gq & Gu & Gs & Gt & Hr & Hd).
  assert (L : List.length d = List.length t).
  { rewrite (rectangular_length df _ _ Hr Gd), (rectangular_length df _ _ Hr Gt).
    reflexivity. }
  destruct (monthly_groups df d t Gd Gt L) as (ps & ts & E & Lp & ND & I).
  eexists. exists ps, ts. split; [exact E|].
  split; [reflexivity|]. split; [reflexivity|].
  split; [exact Lp|]. split; [exact ND|].
  unfold total_of. rewrite (cells_getcol _ _ _ Gd), (cells_getcol _ _ _ Gt).
  exact I.
Qed.

Lemma monthly_summary_groups_witness :
  exists (m : call) (ps : list Period) (ts : list Z),
    generate_monthly_sales scenario_cleaned = Ok m /\
    cells (returned m) "YearMonth" = map (fun p => Str (Period_str p)) ps /\
    In (mkPeriod 2024 2, 10) (combine ps ts).
Proof.
  destruct (monthly_summary_groups scenario_cleaned eq_refl)
    as (m & ps & ts & E & C & _ & _ & _ & I).
  exists m, ps, ts. split; [exact E|]. split; [exact C|]. apply I. split.
  - exists (Time (mkTimestamp 2024 2 1)). split; [simpl; tauto | reflexivity].
  - reflexivity.
Defined.

(** The yearly summary of a table given by its Date and Total Sale
    columns. *)
Lemma ytd_groups (df : DataFrame) (d t : Series) :
  getcol df "Date" = Some d -> getcol df "Total Sale" = Some t ->
  List.length d = List.length t ->
  exists (ys ts : list Z),
    generate_ytd_sales df
    = Ok (mkCall [("Year", map Num ys); ("Total Sale", map Num ts)]
                 (setcol df "Year" (dt_year d))) /\
    List.length ys = List.length ts /\
    NoDup ys /\
    (forall yr v, In (yr, v) (combine ys ts) <->
                  (exists x, In x d /\ in_year yr x = true) /\
                  v = sum_values (keep (map (in_year yr) d) t)).
Proof.
  intros Gd Gt Ld.
  assert (L : List.length (dt_year d) = List.length t)
    by (unfold dt_year; rewrite length_map; exact Ld).
  destruct (derived_summary df "Year" (dt_year d) t
              ltac:(discriminate) Gt L) as (K & ts & E & LK & ND & HK & I).
  assert (HP : Forall (fun v => is_num v = true) K).
  { apply Forall_forall. intros k Hk. destruct (HK k Hk) as [H1 H2].
    unfold dt_year in H1. apply in_map_iff in H1.
    destruct H1 as [v [<- _]]. destruct v; try congruence. reflexivity. }
  destruct (as_nums _ HP) as [ys ->].
  exists ys, ts. split; [|split; [|split]].
  - unfold generate_ytd_sales, getitem. rewrite Gd. simpl.
    destruct (groupby_sum _ "Year" "Total Sale") as [g|e];
      simpl in E |- *; [|discriminate].
    rewrite E. reflexivity.
  - rewrite length_map in LK. exact LK.
  - apply (NoDup_map_inv Num), ND.
  - intros y' t'.
    rewrite <- (In_combine_map Num Num y' t' ys ts)
      by (intros ? ? H; inversion H; reflexivity).
    rewrite I, In_years, rows_in_year.
    split; [intros (H1 & _ & H3) | intros (H1 & H3)]; repeat split; auto.
    discriminate.
Qed.

(** The yearly summary, row by row: one row for each year in which the table
    has a sale, and beside each year the sum of Total Sale over the rows
    dated in that year. *)
Theorem ytd_summary_groups (df : DataFrame) :
  cleaned df = true ->
  exists (y : call) (ys ts : list Z),
    generate_ytd_sales df = Ok y /\
    cells (returned y) "Year" = map Num ys /\
    cells (returned y) "Total Sale" = map Num ts /\
    List.length ys = List.length ts /\
    NoDup ys /\
    (forall yr t, In (yr, t) (combine ys ts) <->
                  (exists d, In d (cells df "Date") /\ in_year yr d = true) /\
                  t = total_of df (map (in_year yr) (cells df "Date"))).
Proof.
  intros Hc.
  destruct (cleaned_inv df Hc)
    as (d & p & q & u & s & t & Gd & Gp & Gq & Gu & Gs & Gt & Hr & Hd).
  assert (L : List.length d = List.length t).
  { rewrite (rectangular_length df _ _ Hr Gd), (rectangular_length df _ _ Hr Gt).
    reflexivity. }
  destruct (ytd_groups df d t Gd Gt L) as (ys & ts & E & Ly & ND & I).
  eexists. exists ys, ts. split; [exact E|].
  split; [reflexivity|]. split; [reflexivity|].
  split; [exact Ly|]. split; [exact ND|].
  unfold total_of. rewrite (cells_getcol _ _ _ Gd), (cells_getcol _ _ _ Gt).
  exact I.
Qed.

Lemma ytd_summary_groups_witness :
  exists (y : call) (ys ts : list Z),
    generate_ytd_sales scenario_cleaned = Ok y /\
    cells (returned y) "Year" = map Num ys /\
    In (2024, 30) (combine ys ts).
Proof.
  destruct (ytd_summary_groups scenario_cleaned eq_refl)
    as (y & ys & ts & E & C & _ & _ & _ & I).
  exists y, ys, ts. split; [exact E|]. split; [exact C|]. apply I. split.
  - exists (Time (mkTimestamp 2024 2 1)). split; [simpl; tauto | reflexivity].
  - reflexivity.
Defined.

(** ** What the aggregations read *)

Lemma groupby_sum_ext (df df' : DataFrame) (key val : string) :
  getcol df key = getcol df' key -> getcol df val = getcol df' val ->
  groupby_sum df key val = groupby_sum df' key val.
Proof.
  intros Hk Hv. unfold groupby_sum, getitem. rewrite Hk, Hv. reflexivity.
Qed.

Lemma by_total_ext (df df' : DataFrame) (key : string) :
  getcol df key = getcol df' key ->
  getcol df "Total Sale" = getcol df' "Total Sale" ->
  result_map returned
    (g <- groupby_sum df key "Total Sale" ;;
     s <- sort_values g "Total Sale" false ;;
     Ok (mkCall s df))%result
  = result_map returned
      (g <- groupby_sum df' key "Total Sale" ;;
       s <- sort_values g "Total Sale" false ;;
       Ok (mkCall s df'))%result.
Proof.
  intros Hk Hv. rewrite (groupby_sum_ext df df' _ _ Hk Hv).
  destruct (groupby_sum df' key "Total Sale") as [g|e]; simpl; [|reflexivity].
  destruct (sort_values g "Total Sale" false); reflexivity.
Qed.

Lemma generate_monthly_sales_ext (df df' : DataFrame) :
  getcol df "Date" = getcol df' "Date" ->
  getcol df "Total Sale" = getcol df' "Total Sale" ->
  result_map returned (generate_monthly_sales df)
  = result_map returned (generate_monthly_sales df').
Proof.
  intros Hd Hv. unfold generate_monthly_sales, getitem. rewrite Hd.
  destruct (getcol df' "Date") as [d|]; simpl; [|reflexivity].
  rewrite (groupby_sum_ext (setcol df "YearMonth" (dt_to_period_M d))
             (setcol df' "YearMonth" (dt_to_period_M d))
             "YearMonth" "Total Sale").
  - destruct (groupby_sum _ "YearMonth" "Total Sale") as [g|e]; simpl;
      [|reflexivity].
    destruct (sort_values g "YearMonth" true) as [g'|e]; simpl; [|reflexivity].
    destruct (match getcol g' "YearMonth" with
              | Some s => Ok s
              | None => Raise (KeyError "YearMonth")
              end); reflexivity.
  - rewrite !getcol_setcol_same. reflexivity.
  - rewrite !getcol_setcol_other by discriminate. exact Hv.
Qed.

Lemma generate_ytd_sales_ext (df df' : DataFrame) :
  getcol df "Date" = getcol df' "Date" ->
  getcol df "Total Sale" = getcol df' "Total Sale" ->
  result_map returned (generate_ytd_sales df)
  = result_map returned (generate_ytd_sales df').
Proof.
  intros Hd Hv. unfold generate_ytd_sales, getitem. rewrite Hd.
  destruct (getcol df' "Date") as [d|]; simpl; [|reflexivity].
  rewrite (groupby_sum_ext (setcol df "Year" (dt_year d))
             (setcol df' "Year" (dt_year d)) "Year" "Total Sale").
  - destruct (groupby_sum _ "Year" "Total Sale") as [g|e]; simpl;
      [|reflexivity].
    destruct (sort_values g "Year" true) as [g'|e]; reflexivity.
  - rewrite !getcol_setcol_same. reflexivity.
  - rewrite !getcol_setcol_other by discriminate. exact Hv.
Qed.

(** Each aggregation reads two columns of the table and no other: assigning
    any other column, before the call, does not change the summary that it
    returns (nor the exception that it raises).  In particular the columns
    YearMonth and Year that [generate_monthly_sales] and [generate_ytd_sales]
    leave on the caller's table do not change what a later call returns. *)
Theorem summaries_read_two_columns (df : DataFrame) (c : string) (x : Series) :
  c <> "Total Sale" ->
  (c <> "Product" ->
   result_map returned (generate_product_sales (setcol df c x))
   = result_map returned (generate_product_sales df)) /\
  (c <> "Salesperson" ->
   result_map returned (generate_salesperson_sales (setcol df c x))
   = result_map returned (generate_salesperson_sales df)) /\
  (c <> "Date" ->
   result_map returned (generate_monthly_sales (setcol df c x))
   = result_map returned (generate_monthly_sales df)) /\
  (c <> "Date" ->
   result_map returned (generate_ytd_sales (setcol df c x))
   = result_map returned (generate_ytd_sales df)).
Proof.
  intros Ht.
  assert (G : forall c', c' <> c -> getcol (setcol df c x) c' = getcol df c')
    by (intros c' H; apply getcol_setcol_other, H).
  repeat split; intros Hc.
  - apply by_total_ext; apply G; congruence.
  - apply by_total_ext; apply G; congruence.
  - apply generate_monthly_sales_ext; apply G; congruence.
  - apply generate_ytd_sales_ext; apply G; congruence.
Qed.

Lemma summaries_read_two_columns_witness :
  result_map returned
    (generate_ytd_sales
       (setcol scenario_cleaned "YearMonth"
          (dt_to_period_M (cells scenario_cleaned "Date"))))
  = result_map returned (generate_ytd_sales scenario_cleaned).
Proof.
  apply (summaries_read_two_columns scenario_cleaned "YearMonth");
    discriminate.
Defined.

(** ** Complete runs *)

Lemma nonempty_frame (df : DataFrame) :
  (0 < nrows df)%nat -> empty df = false.
Proof.
  destruct df as [|cs df]; simpl; [lia|].
  intros H. apply Nat.eqb_neq. unfold nrows in H. destruct cs. lia.
Qed.

(** [main] on a table with the required columns and at least one valid row,
    up to the point where it writes the workbook: the console holds the
    banner, the loader's warnings and the four tables, and the four
    summaries are those of the loader's table. *)
Lemma main_run (pd : Pandas) (h : HashOrder) (env : Env) (df : DataFrame) :
  read_csv env INPUT_FILE = CsvOk df ->
  issubset required_columns (columns df) = true ->
  rectangular df = true ->
  (0 < count_true (valid_rows pd df))%nat ->
  exists (sales_df : DataFrame) (p s m y : call),
    read_sales_data pd h env INPUT_FILE (mkWorld [banner] Untouched)
    = (mkWorld ([banner] ++ date_lines pd df ++ numeric_lines pd df) Untouched,
       Ok sales_df) /\
    cleaned sales_df = true /\
    generate_product_sales sales_df = Ok p /\
    generate_salesperson_sales sales_df = Ok s /\
    generate_monthly_sales sales_df = Ok m /\
    generate_ytd_sales sales_df = Ok y /\
    main pd h env world0
    = (save_to_excel env (returned p) (returned s) (returned m) (returned y)
         OUTPUT_FILE ;; print completed_line)%prog
        (mkWorld ([banner] ++ date_lines pd df ++ numeric_lines pd df ++
                  report_lines pd (returned p) (returned s) (returned m)
                    (returned y)) Untouched).
Proof.
  intros Hcsv Hsub Hrect Hpos.
  destruct (read_sales_data_run pd h env INPUT_FILE df
              (mkWorld [banner] Untouched) Hcsv Hsub Hrect)
    as (out & E & C & _ & _ & _ & _ & N).
  cbn [stdout xlsx] in E.
  destruct (cleaned_inv out C)
    as (d & p & q & u & s & t & Gd & Gp & Gq & Gu & Gs & Gt & Hr & Hd).
  destruct (generate_product_sales_summary out p t Gp Gt)
    as (pk & pt & Ep & _).
  destruct (generate_salesperson_sales_summary out s t Gs Gt)
    as (sk & st & Es & _).
  destruct (generate_monthly_sales_summary out d t Gd Gt)
    as (mk & mt & Em & _).
  destruct (generate_ytd_sales_summary out d t Gd Gt)
    as (yk & yt & Ey & _).
  set (out' := setcol out "YearMonth" (dt_to_period_M d)) in *.
  assert (Ey' : exists y', generate_ytd_sales out' = Ok y' /\
                           returned y' = [("Year", map Num yk);
                                          ("Total Sale", map Num yt)]).
  { pose proof (generate_ytd_sales_ext out' out) as X.
    rewrite Ey in X. simpl in X.
    destruct (generate_ytd_sales out') as [y'|e]; simpl in X.
    - exists y'. split; [reflexivity|].
      assert (X' : Ok (returned y')
                   = Ok [("Year", map Num yk); ("Total Sale", map Num yt)]).
      { apply X; unfold out'; rewrite getcol_setcol_other by discriminate;
          reflexivity. }
      inversion X'. reflexivity.
    - assert (X' : @Raise DataFrame e
                   = Ok [("Year", map Num yk); ("Total Sale", map Num yt)]).
      { apply X; unfold out'; rewrite getcol_setcol_other by discriminate;
          reflexivity. }
      discriminate. }
  destruct Ey' as (y' & Ey' & Ry').
  do 5 eexists.
  split; [exact E|]. split; [exact C|]. split; [exact Ep|].
  split; [exact Es|]. split; [exact Em|]. split; [exact Ey|].
  unfold main. cbv zeta.
  unfold bind at 1, print at 1. cbn [stdout xlsx world0 app].
  unfold bind at 1. rewrite E.
  rewrite (nonempty_frame out) by (rewrite N; exact Hpos).
  unfold bind at 1, lift at 1. rewrite Ep. cbn [arg_after returned].
  unfold bind at 1, lift at 1. rewrite Es. cbn [arg_after returned].
  unfold bind at 1, lift at 1. rewrite Em. cbn [arg_after returned].
  fold out'.
  unfold bind at 1, lift at 1. rewrite Ey'. rewrite Ry'.
  unfold print_console_table.
  unfold bind at 1. unfold bind at 1. unfold print at 1 2.
  cbn [stdout xlsx].
  unfold bind at 1. unfold bind at 1. unfold print at 1 2.
  cbn [stdout xlsx].
  unfold bind at 1. unfold bind at 1. unfold print at 1 2.
  cbn [stdout xlsx].
  unfold bind at 1. unfold bind at 1. unfold print at 1 2.
  cbn [stdout xlsx].
  f_equal. f_equal.
  unfold report_lines, table_lines. cbn [returned].
  rewrite <- !app_assoc. reflexivity.
Qed.

(** A complete run.  On a table with the required columns and at least one
    valid row, with an output file that can be written, [main] returns
    normally.  The console holds, in this order, the banner, the loader's
    warnings, the four tables (product, salesperson, monthly, yearly), the
    line that reports the saved file and the closing line.  The workbook
    holds the same four summaries, those of the loader's table, one per
    sheet and in the same order. *)
Theorem main_report (pd : Pandas) (h : HashOrder) (env : Env) (df : DataFrame) :
  read_csv env INPUT_FILE = CsvOk df ->
  issubset required_columns (columns df) = true ->
  rectangular df = true ->
  (0 < count_true (valid_rows pd df))%nat ->
  excel_fault env = None ->
  exists (sales_df : DataFrame) (p s m y : call),
    read_sales_data pd h env INPUT_FILE (mkWorld [banner] Untouched)
    = (mkWorld ([banner] ++ date_lines pd df ++ numeric_lines pd df) Untouched,
       Ok sales_df) /\
    generate_product_sales sales_df = Ok p /\
    generate_salesperson_sales sales_df = Ok s /\
    generate_monthly_sales sales_df = Ok m /\
    generate_ytd_sales sales_df = Ok y /\
    main pd h env world0
    = (mkWorld ([banner] ++ date_lines pd df ++ numeric_lines pd df ++
                report_lines pd (returned p) (returned s) (returned m)
                  (returned y) ++
                [saved_line; completed_line])
               (Saved [("Product Sales", returned p);
                       ("Salesperson Sales", returned s);
                       ("Monthly Sales", returned m);
                       ("YTD Sales", returned y)]),
       Ok tt).
Proof.
  intros Hcsv Hsub Hrect Hpos Hf.
  destruct (main_run pd h env df Hcsv Hsub Hrect Hpos)
    as (out & p & s & m & y & E & _ & Ep & Es & Em & Ey & R).
  exists out, p, s, m, y.
  split; [exact E|]. split; [exact Ep|]. split; [exact Es|].
  split; [exact Em|]. split; [exact Ey|].
  rewrite R. unfold save_to_excel. rewrite Hf.
  unfold bind, set_xlsx, print. cbn [stdout xlsx].
  f_equal. f_equal. rewrite <- !app_assoc. reflexivity.
Qed.

Lemma main_report_witness :
  exists (sales_df : DataFrame) (p : call),
    generate_product_sales sales_df = Ok p /\
    exists (out : World),
      main iso_pandas hash_order_id (env_of scenario) world0 = (out, Ok tt) /\
      exists s m y,
        xlsx out = Saved [("Product Sales", returned p);
                          ("Salesperson Sales", s);
                          ("Monthly Sales", m);
                          ("YTD Sales", y)].
Proof.
  destruct (main_report iso_pandas hash_order_id (env_of scenario) scenario
              eq_refl eq_refl eq_refl ltac:(vm_compute; lia) eq_refl)
    as (sales_df & p & s & m & y & _ & Ep & _ & _ & _ & R).
  exists sales_df, p. split; [exact Ep|].
  eexists. split; [exact R|]. do 3 eexists. reflexivity.
Defined.

(** A run whose workbook cannot be written.  On a table with the required
    columns and at least one valid row, [main] ends by [sys.exit] with the
    writer's error, after the banner, the warnings and the four tables have
    been printed; neither the line that reports the saved file nor the
    closing line is printed. *)
Theorem main_write_failure (pd : Pandas) (h : HashOrder) (env : Env)
  (df : DataFrame) (e : string) :
  read_csv env INPUT_FILE = CsvOk df ->
  issubset required_columns (columns df) = true ->
  rectangular df = true ->
  (0 < count_true (valid_rows pd df))%nat ->
  excel_fault env = Some e ->
  exists (sales_df : DataFrame) (p s m y : call),
    read_sales_data pd h env INPUT_FILE (mkWorld [banner] Untouched)
    = (mkWorld ([banner] ++ date_lines pd df ++ numeric_lines pd df) Untouched,
       Ok sales_df) /\
    generate_product_sales sales_df = Ok p /\
    generate_salesperson_sales sales_df = Ok s /\
    generate_monthly_sales sales_df = Ok m /\
    generate_ytd_sales sales_df = Ok y /\
    main pd h env world0
    = (mkWorld ([banner] ++ date_lines pd df ++ numeric_lines pd df ++
                report_lines pd (returned p) (returned s) (returned m)
                  (returned y))
               WriteFailed,
       Raise (SystemExit (excel_write_error e))) /\
    exit_status (snd (main pd h env world0)) = 1.
Proof.
  intros Hcsv Hsub Hrect Hpos Hf.
  destruct (main_run pd h env df Hcsv Hsub Hrect Hpos)
    as (out & p & s & m & y & E & _ & Ep & Es & Em & Ey & R).
  exists out, p, s, m, y.
  split; [exact E|]. split; [exact Ep|]. split; [exact Es|].
  split; [exact Em|]. split; [exact Ey|].
  rewrite R. unfold save_to_excel. rewrite Hf.
  unfold bind, set_xlsx, sys_exit. cbn [stdout xlsx]. split; reflexivity.
Qed.

Lemma main_write_failure_witness :
  exists out : World,
    main iso_pandas hash_order_id env_locked world0
    = (out, Raise (SystemExit (excel_write_error "Permission denied"))) /\
    xlsx out = WriteFailed.
Proof.
  destruct (main_write_failure iso_pandas hash_order_id env_locked scenario
              "Permission denied"
              eq_refl eq_refl eq_refl ltac:(vm_compute; lia) eq_refl)
    as (sales_df & p & s & m & y & _ & _ & _ & _ & _ & R & _).
  eexists. split; [exact R | reflexivity].
Defined.

(** ** Months and years *)










(** ** The numeric warning *)

(** The count in the numeric warning.  On a table that has the required
    columns, the rows whose date parses are the rows that the loader returns
    and the rows that it removes for an unparsable Quantity or Unit Price;
    the count that the numeric warning reports is the number of the removed
    rows plus the number of rows in which both Quantity and Unit Price are
    unparsable: such a row is counted twice. *)
Theorem numeric_warning_count (pd : Pandas) (h : HashOrder) (env : Env)
  (path : string) (df : DataFrame) (w : World) :
  read_csv env path = CsvOk df ->
  issubset required_columns (columns df) = true ->
  rectangular df = true ->
  exists out : DataFrame,
    read_sales_data pd h env path w
    = (mkWorld (stdout w ++ date_lines pd df ++ numeric_lines pd df) (xlsx w),
       Ok out) /\
    (numeric_tally pd df + nrows out
     = count_true (good_dates pd df) +
       count_true (mask_and (good_dates pd df)
                     (mask_and (bad_numbers pd df "Quantity")
                               (bad_numbers pd df "Unit Price"))))%nat.
Proof.
  intros Hcsv Hsub Hrect.
  destruct (read_sales_data_run pd h env path df w Hcsv Hsub Hrect)
    as (out & E & _ & _ & _ & _ & _ & N).
  exists out. split; [exact E|]. rewrite N.
  apply numeric_tally_overcounts; assumption.
Qed.

Lemma numeric_warning_count_witness :
  exists out : DataFrame,
    read_sales_data iso_pandas hash_order_id (env_of bad_quantity_bad_price)
      INPUT_FILE world0
    = (mkWorld [numeric_warning 2] Untouched, Ok out) /\
    (2 + nrows out = 1 + 1)%nat.
Proof.
  apply (numeric_warning_count iso_pandas hash_order_id
           (env_of bad_quantity_bad_price) INPUT_FILE bad_quantity_bad_price
           world0 eq_refl eq_refl eq_refl).
Defined.
